(** * Finance news dashboard ([options.py]): a shallow embedding

    The program is a linear pipeline over three outside systems: a news feed
    (feedparser), a sentiment library (TextBlob) and a market-data provider
    (yfinance), glued together by a page renderer (streamlit).  Each function
    of [options.py] is embedded below in a module of its own; what the outside
    systems answer is an input of the embedding (a section variable or an
    argument), never something the embedding invents. *)

From Stdlib Require Import ZArith NArith Floats Lia String Ascii List.
From stdpp Require Import gmap strings list pretty.

Set Warnings "-inexact-float".
Set Default Proof Using "Type".

(** ** Python values shared by the modules *)

Module Py.

(** A Python [str] is a sequence of Unicode code points. *)
Definition pystr : Type := list N.

(** The code points of an ASCII literal of the source. *)
Definition str (s : string) : pystr :=
  List.map N_of_ascii (list_ascii_of_string s).

(** Exceptions derived from [Exception]: what the libraries called by the
    program raise, and what [except Exception] catches. *)
Inductive exn : Type :=
| AttributeError
| KeyError
| LibraryError (name : string).

(** The outcome of a Python computation: a value or a raised exception. *)
Inductive res (A : Type) : Type :=
| Ok (a : A)
| Raise (e : exn).
Arguments Ok {A} a.
Arguments Raise {A} e.

Definition bind {A B} (m : res A) (k : A -> res B) : res B :=
  match m with
  | Ok a => k a
  | Raise e => Raise e
  end.

(** [try: body / except Exception: handler]. *)
Definition try_except {A} (body : res A) (handler : res A) : res A :=
  match body with
  | Ok a => Ok a
  | Raise _ => handler
  end.

End Py.

(** [x ← m; k] sequences two computations: an exception raised by [m]
    skips [k]. *)
#[global] Instance res_bind : MBind Py.res := fun A B k m => Py.bind m k.
#[global] Instance res_ret : MRet Py.res := fun A a => Py.Ok a.

(** ** Sentiment Scorer: [analyze_sentiment] (lines 64-73) *)

Module Sentiment.

(** Python floats are IEEE binary64 numbers, as Rocq's primitive floats are;
    the literal [0.1] denotes the same double in both. *)
Definition pos_threshold : float := 0.1%float.
Definition neg_threshold : float := (-0.1)%float.

Section Scorer.

(** [TextBlob(text).sentiment.polarity]: the library's lexical model. *)
Variable polarity_of : Py.pystr -> float.

Definition analyze_sentiment (text : Py.pystr) : string * string * float :=
  let polarity := polarity_of text in
  if PrimFloat.ltb pos_threshold polarity then ("Positive", "pos", polarity)
  else if PrimFloat.ltb polarity neg_threshold then ("Negative", "neg", polarity)
  else ("Neutral", "neu", polarity).

Definition label_of (r : string * string * float) : string := r.1.1.
Definition class_of (r : string * string * float) : string := r.1.2.
Definition polarity_in (r : string * string * float) : float := r.2.

End Scorer.

(** *** Order facts about the two thresholds *)

Lemma pos_threshold_spec :
  Prim2SF pos_threshold = S754_finite false 7205759403792794 (-56).
Proof. reflexivity. Qed.

Lemma neg_threshold_spec :
  Prim2SF neg_threshold = S754_finite true 7205759403792794 (-56).
Proof. reflexivity. Qed.

Ltac float_cases x :=
  rewrite ?ltb_spec, ?leb_spec;
  rewrite ?pos_threshold_spec, ?neg_threshold_spec;
  unfold SFltb, SFleb;
  destruct (Prim2SF x) as [s|s| |s m e]; try destruct s;
  cbv beta iota delta [SFcompare];
  try congruence.

(** Both comparisons of a finite [x] with a threshold, read off one
    comparison of exponents and one of mantissas. *)
Ltac flip_compare e m :=
  let H := fresh "H" in
  assert (H : Pos.compare_cont Eq 7205759403792794 m =
              CompOpp (Pos.compare_cont Eq m 7205759403792794))
    by (rewrite Pos.compare_cont_antisym; reflexivity);
  rewrite (Z.compare_antisym e (-56)), ?H;
  destruct (e ?= -56)%Z; cbn [CompOpp]; try congruence;
  destruct (Pos.compare_cont Eq m 7205759403792794); cbn [CompOpp];
  congruence.

(** A polarity below [-0.1] is not above [0.1]. *)
Lemma below_neg_not_above_pos (x : float) :
  PrimFloat.ltb x neg_threshold = true ->
  PrimFloat.ltb pos_threshold x = false.
Proof. float_cases x. Qed.

(** [p <= 0.1] excludes [0.1 < p]. *)
Lemma le_pos_not_above (x : float) :
  PrimFloat.leb x pos_threshold = true ->
  PrimFloat.ltb pos_threshold x = false.
Proof.
  float_cases x; flip_compare e m.
Qed.

(** [-0.1 <= p] excludes [p < -0.1]. *)
Lemma ge_neg_not_below (x : float) :
  PrimFloat.leb neg_threshold x = true ->
  PrimFloat.ltb x neg_threshold = false.
Proof.
  float_cases x; flip_compare e m.
Qed.

(** *** The classifier *)

Section ScorerFacts.

Variable polarity_of : Py.pystr -> float.

Lemma analyze_sentiment_cases (text : Py.pystr) :
  let p := polarity_of text in
  analyze_sentiment polarity_of text =
    if PrimFloat.ltb pos_threshold p then ("Positive", "pos", p)
    else if PrimFloat.ltb p neg_threshold then ("Negative", "neg", p)
    else ("Neutral", "neu", p).
Proof. reflexivity. Qed.

(** C1. The label is Positive exactly when the polarity is strictly above
    0.1, Negative exactly when it is strictly below -0.1, and Neutral in every
    other case; every polarity in the closed interval from -0.1 to 0.1, the two
    boundary values included, is Neutral.  The polarity itself is returned
    unchanged. *)
Theorem analyze_sentiment_thresholds (text : Py.pystr) :
  let p := polarity_of text in
  let r := analyze_sentiment polarity_of text in
  (label_of r = "Positive" <-> PrimFloat.ltb pos_threshold p = true) /\
  (label_of r = "Negative" <-> PrimFloat.ltb p neg_threshold = true) /\
  (label_of r = "Neutral" <->
     PrimFloat.ltb pos_threshold p = false /\
     PrimFloat.ltb p neg_threshold = false) /\
  (PrimFloat.leb neg_threshold p = true ->
   PrimFloat.leb p pos_threshold = true -> label_of r = "Neutral") /\
  (p = pos_threshold -> label_of r = "Neutral") /\
  (p = neg_threshold -> label_of r = "Neutral") /\
  polarity_in r = p.
Proof.
  intros p r. subst r. rewrite analyze_sentiment_cases. fold p.
  destruct (PrimFloat.ltb pos_threshold p) eqn:Hpos;
    destruct (PrimFloat.ltb p neg_threshold) eqn:Hneg;
    unfold label_of, polarity_in; simpl.
  - apply below_neg_not_above_pos in Hneg. congruence.
  - repeat split; try congruence; try (intros [? ?]; congruence).
    + intros _ Hle. apply le_pos_not_above in Hle. congruence.
    + intros Heq. rewrite Heq in Hpos. vm_compute in Hpos. congruence.
    + intros Heq. rewrite Heq in Hpos. vm_compute in Hpos. congruence.
  - repeat split; try congruence; try (intros [? ?]; congruence).
    + intros Hge _. apply ge_neg_not_below in Hge. congruence.
    + intros Heq. rewrite Heq in Hneg. vm_compute in Hneg. congruence.
    + intros Heq. rewrite Heq in Hneg. vm_compute in Hneg. congruence.
  - repeat split; congruence.
Qed.

End ScorerFacts.

(** The two boundary polarities, run through the classifier. *)
Lemma analyze_sentiment_thresholds_witness :
  label_of (analyze_sentiment (fun _ => pos_threshold) (Py.str "flat")) = "Neutral" /\
  label_of (analyze_sentiment (fun _ => neg_threshold) (Py.str "flat")) = "Neutral".
Proof.
  split.
  - destruct (analyze_sentiment_thresholds
                (fun _ => pos_threshold) (Py.str "flat"))
      as (_ & _ & _ & _ & Hpos & _).
    apply Hpos. reflexivity.
  - destruct (analyze_sentiment_thresholds
                (fun _ => neg_threshold) (Py.str "flat"))
      as (_ & _ & _ & _ & _ & Hneg & _).
    apply Hneg. reflexivity.
Defined.

(** *** The labels follow the order of the polarities *)

(** Two floats of the same sign compare by exponent, then by mantissa; the
    three comparisons at hand are settled from the three of each kind. *)
Ltac lex_order :=
  change (PosDef.Pos.compare_cont Eq) with Pos.compare;
  repeat match goal with
         | |- context [(?a ?= ?b)%Z] => destruct (Z.compare_spec a b)
         end;
  simpl; try congruence; try lia;
  repeat match goal with
         | |- context [(?a ?= ?b)%positive] => destruct (Pos.compare_spec a b)
         end;
  simpl; try congruence; try lia.

(** The order facts hold for any threshold, so its mantissa and exponent
    are abstracted before the case analysis. *)
Ltac float_cases2 x y :=
  rewrite !ltb_spec, leb_spec;
  rewrite ?pos_threshold_spec, ?neg_threshold_spec;
  unfold SFltb, SFleb;
  generalize 7205759403792794%positive; intros m0;
  generalize (-56)%Z; intros e0;
  destruct (Prim2SF x) as [s|s| |s m e]; try destruct s;
  destruct (Prim2SF y) as [s'|s'| |s' m' e']; try destruct s';
  simpl; try congruence.

(** Above [0.1], and anything at least as large is above [0.1] too. *)
Lemma above_pos_upward (x y : float) :
  PrimFloat.ltb pos_threshold x = true ->
  PrimFloat.leb x y = true ->
  PrimFloat.ltb pos_threshold y = true.
Proof. float_cases2 x y; lex_order. Qed.

(** Below [-0.1], and anything at most as large is below [-0.1] too. *)
Lemma below_neg_downward (x y : float) :
  PrimFloat.ltb y neg_threshold = true ->
  PrimFloat.leb x y = true ->
  PrimFloat.ltb x neg_threshold = true.
Proof. float_cases2 x y; lex_order. Qed.

Section ScorerOrder.

Variable polarity_of : Py.pystr -> float.

(** X10. The classification respects the order of the polarities: when the
    polarity of one text is at most that of another, a Positive label of the
    first carries over to the second and a Negative label of the second
    carries over to the first; a text is never rated below a text of lower
    polarity. *)
Theorem analyze_sentiment_monotone (low high : Py.pystr) :
  PrimFloat.leb (polarity_of low) (polarity_of high) = true ->
  (label_of (analyze_sentiment polarity_of low) = "Positive" ->
   label_of (analyze_sentiment polarity_of high) = "Positive") /\
  (label_of (analyze_sentiment polarity_of high) = "Negative" ->
   label_of (analyze_sentiment polarity_of low) = "Negative").
Proof.
  intros Hle. rewrite !analyze_sentiment_cases. cbv zeta.
  pose proof (above_pos_upward (polarity_of low) (polarity_of high)) as Hup.
  pose proof (below_neg_downward (polarity_of low) (polarity_of high)) as Hdown.
  pose proof (below_neg_not_above_pos (polarity_of low)) as Hex.
  destruct (PrimFloat.ltb pos_threshold (polarity_of low)) eqn:Hl1;
    destruct (PrimFloat.ltb (polarity_of low) neg_threshold) eqn:Hl2;
    destruct (PrimFloat.ltb pos_threshold (polarity_of high)) eqn:Hh1;
    destruct (PrimFloat.ltb (polarity_of high) neg_threshold) eqn:Hh2;
    unfold label_of; cbn [fst snd];
    try (specialize (Hup eq_refl Hle)); try (specialize (Hdown eq_refl Hle));
    try (specialize (Hex eq_refl));
    split; intros H; congruence.
Qed.

End ScorerOrder.

(** Two texts, the second of higher polarity than the first. *)
Lemma analyze_sentiment_monotone_witness :
  label_of (analyze_sentiment
              (fun t => match t with [] => 0.25%float | _ => 0.5%float end)
              (Py.str "gains")) = "Positive".
Proof.
  destruct (analyze_sentiment_monotone
              (fun t => match t with [] => 0.25%float | _ => 0.5%float end)
              [] (Py.str "gains") eq_refl) as [Hpos _].
  apply Hpos. reflexivity.
Defined.

Example analyze_sentiment_positive :
  analyze_sentiment (fun _ => 0.5%float) (Py.str "strong results") =
  ("Positive", "pos", 0.5%float).
Proof. reflexivity. Qed.

Example analyze_sentiment_nan_is_neutral :
  label_of (analyze_sentiment (fun _ => nan) (Py.str "")) = "Neutral".
Proof. reflexivity. Qed.

End Sentiment.

(** ** Ticker Detector: [detect_ticker] (lines 76-82) *)

Module Ticker.

Import Py.

Section Regex.

(** [str.isalnum] outside ASCII, a table of the Unicode database that the
    [re] module consults for [\w]; it is not part of the repository. *)
Variable unicode_alnum : N -> bool.

(** The character class [[A-Z]]. *)
Definition is_upper (c : N) : bool := ((65 <=? c) && (c <=? 90))%N.

Definition ascii_alnum (c : N) : bool :=
  (is_upper c || ((97 <=? c) && (c <=? 122)) || ((48 <=? c) && (c <=? 57)))%N.

(** [\w] of a [str] pattern: alphanumeric or underscore. *)
Definition is_word (c : N) : bool :=
  if (c <? 128)%N then ascii_alnum c || (c =? 95)%N else unicode_alnum c.

(** A position of the subject is seen through the character before it and the
    character at it; [None] is the start or the end of the string. *)
Definition word_at (o : option N) : bool :=
  match o with Some c => is_word c | None => false end.

Definition upper_at (o : option N) : bool :=
  match o with Some c => is_upper c | None => false end.

(** [\b]: exactly one of the two sides is a word character. *)
Definition at_boundary (prev next : option N) : bool :=
  xorb (word_at prev) (word_at next).

(** The greedy repeat [[A-Z]{2,6}] first takes as many letters as it can, at
    most [n]. *)
Fixpoint upper_run (n : nat) (s : pystr) : nat :=
  match n, s with
  | S n', c :: s' => if is_upper c then S (upper_run n' s') else 0
  | _, _ => 0
  end.

(** Then it tries the rest of the pattern, the closing [\b], after [k]
    letters, giving letters back one at a time while at least two remain. *)
Fixpoint longest_ok (k : nat) (s : pystr) : option nat :=
  match k with
  | 0 => None
  | S k' =>
      if (2 <=? k)%nat && at_boundary (s !! k') (s !! k) then Some k
      else longest_ok k' s
  end.

(** One match attempt of [\b[A-Z]{2,6}\b] at the head of [s], the character
    before it being [prev]: the length of the match. *)
Definition match_here (prev : option N) (s : pystr) : option nat :=
  if at_boundary prev (head s) then longest_ok (upper_run 6 s) s else None.

(** [re.findall]: attempts at successive positions from left to right; after a
    match of [k] characters the search resumes behind it, which [skip] counts
    down.  The pattern has no group, so each result is the matched text. *)
Fixpoint scan (prev : option N) (skip : nat) (s : pystr) : list pystr :=
  match s with
  | [] => []
  | c :: s' =>
      match skip with
      | S n => scan (Some c) n s'
      | 0 =>
          match match_here prev s with
          | Some k => take k s :: scan (Some c) (k - 1) s'
          | None => scan (Some c) 0 s'
          end
      end
  end.

Definition findall (title : pystr) : list pystr := scan None 0 title.

(** The loop of [detect_ticker]: two [append]s per token. *)
Fixpoint detect_loop (tokens : list pystr) (tickers : list pystr) : list pystr :=
  match tokens with
  | [] => tickers
  | t :: rest => detect_loop rest ((tickers ++ [t]) ++ [t ++ str ".NS"])
  end.

Definition detect_ticker (title : pystr) : list pystr :=
  detect_loop (findall title) [].

(** *** The tokens as the specification words them

    A token is a run of 2 to 6 consecutive uppercase ASCII letters that is
    maximal (no uppercase letter on either side) and bounded by word
    boundaries.  [token_here prev s k] says that such a run of length [k]
    starts at the head of [s]. *)
Definition token_here (prev : option N) (s : pystr) (k : nat) : bool :=
  (2 <=? k)%nat && (k <=? 6)%nat && (k <=? length s)%nat
  && forallb is_upper (take k s)
  && negb (upper_at prev) && negb (upper_at (s !! k))
  && at_boundary prev (head s)
  && at_boundary (s !! (k - 1)%nat) (s !! k).

Definition tokens_here (prev : option N) (s : pystr) : list pystr :=
  flat_map (fun k => if token_here prev s k then [take k s] else [])
           [2; 3; 4; 5; 6]%nat.

(** All tokens of the title, by starting position from left to right. *)
Fixpoint tokens_from (prev : option N) (s : pystr) : list pystr :=
  match s with
  | [] => []
  | c :: s' => tokens_here prev s ++ tokens_from (Some c) s'
  end.

Definition spec_tokens (title : pystr) : list pystr := tokens_from None title.

End Regex.

(** *** Facts about one match attempt *)

Section RegexFacts.

Variable unicode_alnum : N -> bool.

Local Abbreviation word_at := (word_at unicode_alnum).
Local Abbreviation at_boundary := (at_boundary unicode_alnum).
Local Abbreviation match_here := (match_here unicode_alnum).
Local Abbreviation token_here := (token_here unicode_alnum).
Local Abbreviation tokens_here := (tokens_here unicode_alnum).
Local Abbreviation tokens_from := (tokens_from unicode_alnum).
Local Abbreviation scan := (scan unicode_alnum).

Lemma upper_is_word (c : N) :
  is_upper c = true -> is_word unicode_alnum c = true.
Proof.
  unfold is_word, ascii_alnum, is_upper. intros H.
  destruct (c <? 128)%N eqn:E.
  - rewrite H. reflexivity.
  - apply andb_true_iff in H as [_ H]. apply N.leb_le in H.
    apply N.ltb_ge in E. lia.
Qed.

Lemma upper_at_word_at (o : option N) :
  upper_at o = true -> word_at o = true.
Proof. destruct o as [c|]; simpl; [apply upper_is_word | discriminate]. Qed.

(** No word boundary between two uppercase letters. *)
Lemma no_boundary_between_uppers (a b : option N) :
  upper_at a = true -> upper_at b = true -> at_boundary a b = false.
Proof.
  intros Ha Hb. unfold Ticker.at_boundary.
  rewrite (upper_at_word_at _ Ha), (upper_at_word_at _ Hb). reflexivity.
Qed.

Lemma upper_run_le (n : nat) (s : pystr) : upper_run n s <= n.
Proof.
  revert s. induction n as [|n IH]; intros [|c s]; simpl; try lia.
  destruct (is_upper c); [specialize (IH s)|]; lia.
Qed.

Lemma upper_run_lookup (n : nat) (s : pystr) (i : nat) :
  i < upper_run n s -> upper_at (s !! i) = true.
Proof.
  revert s i. induction n as [|n IH]; intros [|c s] i; simpl; try lia.
  destruct (is_upper c) eqn:Hc; [|lia].
  destruct i as [|i]; simpl; [intros _; exact Hc|].
  intros Hi. apply IH. lia.
Qed.

Lemma upper_run_stop (n : nat) (s : pystr) :
  upper_run n s < n -> upper_at (s !! upper_run n s) = false.
Proof.
  revert s. induction n as [|n IH]; intros [|c s]; simpl; try lia; try reflexivity.
  destruct (is_upper c) eqn:Hc; simpl; [|intros _; exact Hc].
  intros Hi. apply IH. lia.
Qed.

Lemma upper_run_take (n : nat) (s : pystr) (k : nat) :
  k <= n -> k <= length s -> forallb is_upper (take k s) = true ->
  k <= upper_run n s.
Proof.
  revert s k. induction n as [|n IH]; intros [|c s] [|k]; simpl; try lia.
  intros Hn Hs H. apply andb_true_iff in H as [Hc H]. rewrite Hc.
  specialize (IH s k ltac:(lia) ltac:(lia) H). lia.
Qed.

Lemma upper_run_forallb (n : nat) (s : pystr) :
  upper_run n s <= length s /\
  forallb is_upper (take (upper_run n s) s) = true.
Proof.
  revert s. induction n as [|n IH]; intros [|c s]; simpl;
    try (split; [lia | reflexivity]).
  destruct (is_upper c) eqn:Hc; simpl; [|split; [lia | reflexivity]].
  destruct (IH s) as [Hl Hf]. rewrite Hc, Hf. split; [lia | reflexivity].
Qed.

(** Giving letters back never helps: inside the run the closing [\b] fails. *)
Lemma longest_ok_inside (n : nat) (s : pystr) (j : nat) :
  j < upper_run n s -> longest_ok unicode_alnum j s = None.
Proof.
  induction j as [|j IH]; intros Hj; simpl; [reflexivity|].
  rewrite IH by lia.
  destruct j as [|j]; [reflexivity|].
  rewrite no_boundary_between_uppers, andb_false_r; [reflexivity| |].
  - apply (upper_run_lookup n). lia.
  - apply (upper_run_lookup n). lia.
Qed.

Lemma longest_ok_run (n : nat) (s : pystr) :
  longest_ok unicode_alnum (upper_run n s) s =
    if (2 <=? upper_run n s)%nat
       && at_boundary (s !! (upper_run n s - 1)%nat) (s !! upper_run n s)
    then Some (upper_run n s) else None.
Proof.
  destruct (upper_run n s) as [|r'] eqn:Hr; [reflexivity|].
  cbn [longest_ok]. replace (S r' - 1)%nat with r' by lia.
  destruct ((2 <=? S r')%nat && at_boundary (s !! r') (s !! S r'));
    [reflexivity|].
  apply (longest_ok_inside n). lia.
Qed.

(** A match attempt succeeds with length [k] exactly when a token of length
    [k] starts here. *)
Lemma token_here_match (prev : option N) (s : pystr) (k : nat) :
  token_here prev s k = true <-> match_here prev s = Some k.
Proof.
  unfold Ticker.token_here, Ticker.match_here.
  pose proof (upper_run_le 6 s) as Hle6.
  pose proof (upper_run_forallb 6 s) as [Hlen Hall].
  rewrite (longest_ok_run 6 s).
  set (r := upper_run 6 s) in *.
  split.
  - rewrite !andb_true_iff, !Nat.leb_le.
    intros [[[[[[[Hk2 Hk6] Hkl] Hup] _] _] Hstart] Hend].
    assert (Hkr : k <= r) by (apply upper_run_take; assumption).
    assert (k = r) as ->.
    { destruct (decide (k = r)) as [|Hne]; [assumption|exfalso].
      rewrite no_boundary_between_uppers in Hend; [discriminate| |];
        apply (upper_run_lookup 6); fold r; lia. }
    rewrite Hstart, Hend. apply Nat.leb_le in Hk2. rewrite Hk2. reflexivity.
  - destruct (at_boundary prev (head s)) eqn:Hstart; [|discriminate].
    destruct ((2 <=? r)%nat && _) eqn:Hb; [|discriminate].
    intros [= <-]. apply andb_true_iff in Hb as [H2 Hend].
    rewrite H2, Hend, Hall.
    apply Nat.leb_le in H2.
    assert (Hh : upper_at (head s) = true).
    { rewrite head_lookup. apply (upper_run_lookup 6). fold r. lia. }
    assert (Hl : upper_at (s !! (r - 1)%nat) = true).
    { apply (upper_run_lookup 6). fold r. lia. }
    assert (Hp : upper_at prev = false).
    { destruct (upper_at prev) eqn:E; [|reflexivity].
      rewrite no_boundary_between_uppers in Hstart;
        [discriminate | assumption | assumption]. }
    assert (Hn : upper_at (s !! r) = false).
    { destruct (upper_at (s !! r)) eqn:E; [|reflexivity].
      rewrite no_boundary_between_uppers in Hend;
        [discriminate | assumption | assumption]. }
    rewrite Hp, Hn. simpl.
    rewrite !andb_true_r. apply andb_true_iff; split; apply Nat.leb_le; lia.
Qed.

Lemma match_here_range (prev : option N) (s : pystr) (k : nat) :
  match_here prev s = Some k ->
  2 <= k <= 6 /\ k <= length s /\ forallb is_upper (take k s) = true.
Proof.
  intros H. apply token_here_match in H. unfold Ticker.token_here in H.
  rewrite !andb_true_iff, !Nat.leb_le in H.
  destruct H as [[[[[[[Hk2 Hk6] Hkl] Hup] _] _] _] _]. auto.
Qed.

(** At most one token starts at a position, the one the attempt finds. *)
Lemma tokens_here_match (prev : option N) (s : pystr) :
  tokens_here prev s =
    match match_here prev s with
    | Some k => [take k s]
    | None => []
    end.
Proof.
  assert (Hk : forall k, token_here prev s k =
                         bool_decide (match_here prev s = Some k)).
  { intros k. destruct (token_here prev s k) eqn:E.
    - apply token_here_match in E. rewrite bool_decide_eq_true_2; auto.
    - rewrite bool_decide_eq_false_2; [reflexivity|].
      intros H. apply token_here_match in H. congruence. }
  unfold Ticker.tokens_here. simpl. rewrite !Hk.
  destruct (match_here prev s) as [k|] eqn:Hm.
  - apply match_here_range in Hm as [Hr _].
    assert (k = 2 \/ k = 3 \/ k = 4 \/ k = 5 \/ k = 6) as Hc by lia.
    destruct Hc as [-> | [-> | [-> | [-> | ->]]]]; reflexivity.
  - reflexivity.
Qed.

(** The scan loses nothing and invents nothing: while it skips the rest of a
    match, or walks through a word, no token starts. *)
Lemma scan_tokens_from (s : pystr) :
  forall (prev : option N) (skip : nat),
    skip <= length s ->
    forallb (is_word unicode_alnum) (take skip s) = true ->
    (0 < skip -> word_at prev = true) ->
    scan prev skip s = tokens_from prev s.
Proof.
  induction s as [|c s IH]; intros prev skip Hlen Hall Hprev; [reflexivity|].
  simpl scan. simpl tokens_from. rewrite tokens_here_match.
  destruct skip as [|n].
  - destruct (match_here prev (c :: s)) as [k|] eqn:Hm.
    + simpl. f_equal.
      apply match_here_range in Hm as ([Hk2 Hk6] & Hkl & Hup).
      destruct k as [|k]; [lia|]. simpl in Hkl, Hup |- *.
      apply andb_true_iff in Hup as [Hc Hup].
      rewrite Nat.sub_0_r. apply IH.
      * lia.
      * rewrite forallb_forall in Hup |- *. intros x Hx.
        apply upper_is_word, Hup, Hx.
      * intros _. simpl. apply upper_is_word, Hc.
    + simpl. apply IH; [lia | reflexivity | lia].
  - simpl in Hlen, Hall. apply andb_true_iff in Hall as [Hc Hall].
    unfold Ticker.match_here, Ticker.at_boundary. simpl head.
    rewrite (Hprev ltac:(lia)). simpl word_at. rewrite Hc. simpl.
    apply IH; [lia | assumption | intros _; exact Hc].
Qed.

(** [re.findall] returns exactly the tokens of the specification, in order. *)
Lemma findall_spec_tokens (title : pystr) :
  findall unicode_alnum title = spec_tokens unicode_alnum title.
Proof.
  unfold findall, spec_tokens.
  apply scan_tokens_from; [lia | reflexivity | lia].
Qed.

(** Every token is 2 to 6 uppercase ASCII letters. *)
Lemma tokens_from_shape (s : pystr) (prev : option N) :
  Forall (fun t => 2 <= length t <= 6 /\ forallb is_upper t = true)
         (tokens_from prev s).
Proof.
  revert prev. induction s as [|c s IH]; intros prev; simpl; [constructor|].
  apply Forall_app. split; [|apply IH].
  rewrite tokens_here_match.
  destruct (match_here prev (c :: s)) as [k|] eqn:Hm; [|constructor].
  apply match_here_range in Hm as (Hr & Hl & Hu).
  constructor; [|constructor]. split; [|assumption].
  rewrite length_take. lia.
Qed.

(** The loop appends, for each token in order, the token and the token with
    [.NS]. *)
Lemma detect_loop_pairs (tokens acc : list pystr) :
  detect_loop tokens acc =
  acc ++ flat_map (fun t => [t; t ++ str ".NS"]) tokens.
Proof.
  revert acc. induction tokens as [|t rest IH]; intros acc; simpl.
  - rewrite app_nil_r. reflexivity.
  - rewrite IH, <- !app_assoc. reflexivity.
Qed.

Lemma pairs_length (tokens : list pystr) :
  length (flat_map (fun t => [t; t ++ str ".NS"]) tokens) = 2 * length tokens.
Proof. induction tokens as [|t rest IH]; simpl; lia. Qed.

Lemma pairs_lookup (tokens : list pystr) (i : nat) :
  flat_map (fun t => [t; t ++ str ".NS"]) tokens !! (2 * i) = tokens !! i /\
  flat_map (fun t => [t; t ++ str ".NS"]) tokens !! (2 * i + 1) =
    (fun t => t ++ str ".NS") <$> tokens !! i.
Proof.
  revert i. induction tokens as [|t rest IH]; intros i.
  - split; reflexivity.
  - destruct i as [|i]; [split; reflexivity|].
    replace (2 * S i) with (S (S (2 * i))) by lia.
    replace (S (S (2 * i)) + 1) with (S (S (2 * i + 1))) by lia.
    apply IH.
Qed.

(** C2. The result of [detect_ticker] has exactly twice as many elements as
    the title has tokens (maximal runs of 2 to 6 uppercase ASCII letters
    between word boundaries, left to right, repeats kept); element [2i] is the
    i-th token and element [2i+1] is that token followed by [.NS].  The regex
    scan of the source finds exactly those tokens. *)
Theorem detect_ticker_pairs (title : pystr) :
  let tokens := spec_tokens unicode_alnum title in
  let out := detect_ticker unicode_alnum title in
  findall unicode_alnum title = tokens /\
  length out = 2 * length tokens /\
  forall i : nat,
    out !! (2 * i) = tokens !! i /\
    out !! (2 * i + 1) = (fun t => t ++ str ".NS") <$> tokens !! i.
Proof.
  intros tokens out. subst tokens out. unfold detect_ticker.
  rewrite detect_loop_pairs, findall_spec_tokens. simpl.
  split; [reflexivity|]. split; [apply pairs_length | apply pairs_lookup].
Qed.

(** *** Where the candidates come from *)

(** Every token is a piece of the text it was found in. *)
Lemma tokens_from_infix (s : pystr) (prev : option N) (t : pystr) :
  t ∈ tokens_from prev s ->
  exists a b, s = a ++ t ++ b /\
              2 <= length t <= 6 /\ forallb is_upper t = true.
Proof.
  revert prev. induction s as [|c s IH]; intros prev Ht; simpl in Ht.
  - apply elem_of_nil in Ht. contradiction.
  - apply elem_of_app in Ht as [Ht | Ht].
    + rewrite tokens_here_match in Ht.
      destruct (match_here prev (c :: s)) as [k|] eqn:Hm.
      * apply list_elem_of_singleton in Ht. subst t.
        apply match_here_range in Hm as (Hr & Hl & Hu).
        exists [], (drop k (c :: s)). split; [|split].
        -- simpl app. rewrite take_drop. reflexivity.
        -- rewrite length_take. lia.
        -- exact Hu.
      * apply elem_of_nil in Ht. contradiction.
    + apply IH in Ht as (a & b & -> & Hshape).
      exists (c :: a), b. split; [reflexivity | exact Hshape].
Qed.

(** X7. Every candidate is a run of 2 to 6 uppercase ASCII letters that
    occurs in the title, either as it stands or followed by [.NS]; the
    detector never produces text that is not in the headline. *)
Theorem detect_ticker_candidates (title : pystr) :
  Forall (fun c =>
            exists t a b,
              title = a ++ t ++ b /\
              2 <= length t <= 6 /\ forallb is_upper t = true /\
              (c = t \/ c = t ++ str ".NS"))
         (detect_ticker unicode_alnum title).
Proof.
  unfold detect_ticker. rewrite detect_loop_pairs, findall_spec_tokens.
  simpl app. apply Forall_forall. intros c Hc.
  apply list_elem_of_In, in_flat_map in Hc as (t & Ht & Hc).
  apply list_elem_of_In, tokens_from_infix in Ht as (a & b & Htitle & Hlen & Hup).
  exists t, a, b. repeat split; try assumption; try lia.
  destruct Hc as [<- | [<- | []]]; [left | right]; reflexivity.
Qed.

(** X8. A title without any uppercase ASCII letter, the empty title
    included, has no candidate. *)
Theorem detect_ticker_no_uppercase (title : pystr) :
  forallb (fun c => negb (is_upper c)) title = true ->
  detect_ticker unicode_alnum title = [].
Proof.
  intros Hnone. unfold detect_ticker.
  rewrite detect_loop_pairs, findall_spec_tokens. simpl app.
  destruct (spec_tokens unicode_alnum title) as [|t rest] eqn:Htok;
    [reflexivity|exfalso].
  assert (Ht : t ∈ tokens_from None title).
  { unfold spec_tokens in Htok. rewrite Htok. apply elem_of_cons. auto. }
  apply tokens_from_infix in Ht as (a & b & -> & Hlen & Hup).
  rewrite !forallb_app in Hnone.
  apply andb_true_iff in Hnone as [_ Hnone].
  apply andb_true_iff in Hnone as [Hnone _].
  destruct t as [|c t]; simpl in *; [lia|].
  apply andb_true_iff in Hnone as [Hc _].
  apply andb_true_iff in Hup as [Hc' _].
  rewrite Hc' in Hc. discriminate Hc.
Qed.

Lemma not_word_not_upper (c : N) :
  is_word unicode_alnum c = false -> is_upper c = false.
Proof.
  intros Hw. destruct (is_upper c) eqn:Hu; [|reflexivity].
  rewrite (upper_is_word c Hu) in Hw. discriminate Hw.
Qed.

(** A character that is not a word character looks to its neighbours like
    the end of the text. *)
Lemma word_at_before_sep (a b : pystr) (sep : N) (i : nat) :
  is_word unicode_alnum sep = false ->
  i <= length a ->
  word_at ((a ++ sep :: b) !! i) = word_at (a !! i).
Proof.
  intros Hsep Hi. destruct (decide (i < length a)) as [Hlt|Hge].
  - rewrite lookup_app_l by exact Hlt. reflexivity.
  - rewrite lookup_app_r by lia.
    replace (i - length a) with 0 by lia.
    assert (a !! i = None) as -> by (apply lookup_ge_None_2; lia).
    simpl. exact Hsep.
Qed.

Lemma upper_run_before_sep (n : nat) (a b : pystr) (sep : N) :
  is_upper sep = false ->
  upper_run n (a ++ sep :: b) = upper_run n a.
Proof.
  intros Hsep. revert n. induction a as [|c a IH]; intros [|n]; simpl;
    try reflexivity.
  - rewrite Hsep. reflexivity.
  - destruct (is_upper c); [f_equal; apply IH | reflexivity].
Qed.

Lemma upper_run_length (n : nat) (s : pystr) : upper_run n s <= length s.
Proof. apply upper_run_forallb. Qed.

Lemma longest_ok_before_sep (k : nat) (a b : pystr) (sep : N) :
  is_word unicode_alnum sep = false ->
  k <= length a ->
  longest_ok unicode_alnum k (a ++ sep :: b) = longest_ok unicode_alnum k a.
Proof.
  intros Hsep. induction k as [|k IH]; intros Hk; [reflexivity|].
  cbn [longest_ok]. unfold Ticker.at_boundary.
  rewrite !(word_at_before_sep a b sep) by (assumption || lia).
  rewrite IH by lia. reflexivity.
Qed.

Lemma match_here_before_sep (prev : option N) (a b : pystr) (sep : N) :
  is_word unicode_alnum sep = false ->
  match_here prev (a ++ sep :: b) = match_here prev a.
Proof.
  intros Hsep. unfold Ticker.match_here, Ticker.at_boundary.
  rewrite !head_lookup.
  rewrite (word_at_before_sep a b sep) by (assumption || lia).
  rewrite upper_run_before_sep by (apply not_word_not_upper; exact Hsep).
  rewrite longest_ok_before_sep by (assumption || apply upper_run_length).
  reflexivity.
Qed.

Lemma tokens_here_before_sep (prev : option N) (a b : pystr) (sep : N) :
  is_word unicode_alnum sep = false ->
  tokens_here prev (a ++ sep :: b) = tokens_here prev a.
Proof.
  intros Hsep. rewrite !tokens_here_match, match_here_before_sep by exact Hsep.
  destruct (match_here prev a) as [k|] eqn:Hm; [|reflexivity].
  apply match_here_range in Hm as (_ & Hl & _).
  rewrite take_app_le by exact Hl. reflexivity.
Qed.

(** Only whether the character before is a word character matters. *)
Lemma tokens_from_after_sep (sep : N) (s : pystr) :
  is_word unicode_alnum sep = false ->
  tokens_from (Some sep) s = tokens_from None s.
Proof.
  intros Hsep. destruct s as [|c s]; [reflexivity|]. simpl. f_equal.
  rewrite !tokens_here_match. unfold Ticker.match_here, Ticker.at_boundary.
  simpl word_at. rewrite Hsep. reflexivity.
Qed.

Lemma tokens_from_split (a b : pystr) (sep : N) (prev : option N) :
  is_word unicode_alnum sep = false ->
  tokens_from prev (a ++ sep :: b) = tokens_from prev a ++ tokens_from None b.
Proof.
  intros Hsep. revert prev. induction a as [|c a IH]; intros prev.
  - pose proof (tokens_here_before_sep prev [] b sep Hsep) as Hhere.
    simpl app in *. cbn [Ticker.tokens_from].
    rewrite Hhere, tokens_from_after_sep by exact Hsep. reflexivity.
  - change ((c :: a) ++ sep :: b) with (c :: (a ++ sep :: b)).
    cbn [Ticker.tokens_from].
    change (c :: (a ++ sep :: b)) with ((c :: a) ++ sep :: b).
    rewrite tokens_here_before_sep by exact Hsep.
    rewrite IH, app_assoc. reflexivity.
Qed.

(** X9. Tokens never reach across a character that is not a word
    character (a space, a comma, a bracket): the candidates of a title are
    those of the part before such a character followed by those of the part
    after it. *)
Theorem detect_ticker_split (a b : pystr) (sep : N) :
  is_word unicode_alnum sep = false ->
  detect_ticker unicode_alnum (a ++ sep :: b) =
  detect_ticker unicode_alnum a ++ detect_ticker unicode_alnum b.
Proof.
  intros Hsep. unfold detect_ticker.
  rewrite !detect_loop_pairs, !findall_spec_tokens. simpl app.
  unfold spec_tokens. rewrite tokens_from_split by exact Hsep.
  apply flat_map_app.
Qed.

End RegexFacts.

Example detect_ticker_two_tokens :
  detect_ticker (fun _ => false) (str "INFY and TCS gain; TCS up") =
  [str "INFY"; str "INFY.NS"; str "TCS"; str "TCS.NS"; str "TCS"; str "TCS.NS"].
Proof. vm_compute. reflexivity. Qed.

(** An eight-letter name is longer than the pattern allows: no token. *)
Example detect_ticker_long_name :
  detect_ticker (fun _ => false)
    (str "RELIANCE shares surge on strong quarterly results, IPO plans in focus") =
  [str "IPO"; str "IPO.NS"].
Proof. vm_compute. reflexivity. Qed.

Example detect_ticker_mixed_words :
  detect_ticker (fun _ => false) (str "ABcd X_YZ A1BC (NSE) NIFTY50 Q") =
  [str "NSE"; str "NSE.NS"].
Proof. vm_compute. reflexivity. Qed.

Example spec_tokens_mixed_words :
  spec_tokens (fun _ => false) (str "ABcd X_YZ A1BC (NSE) NIFTY50 Q, AB-CD") =
  [str "NSE"; str "AB"; str "CD"].
Proof. vm_compute. reflexivity. Qed.

Lemma detect_ticker_no_uppercase_witness :
  detect_ticker (fun _ => false) (str "markets end flat, 3 gainers") = [].
Proof.
  apply (detect_ticker_no_uppercase (fun _ => false)
           (str "markets end flat, 3 gainers")).
  vm_compute. reflexivity.
Defined.

Lemma detect_ticker_split_witness :
  detect_ticker (fun _ => false) (str "INFY up" ++ 44%N :: str " TCS down") =
  detect_ticker (fun _ => false) (str "INFY up")
  ++ detect_ticker (fun _ => false) (str " TCS down").
Proof.
  apply (detect_ticker_split (fun _ => false) (str "INFY up") (str " TCS down")
           44%N).
  reflexivity.
Defined.

End Ticker.

(** ** News Fetcher: [fetch_google_news] (lines 41-61) *)

Module News.

Import Py.

(** [time.struct_time], the nine-field tuple feedparser stores under
    [published_parsed]. *)
Record struct_time : Type := mk_struct_time {
  tm_year : Z; tm_mon : Z; tm_mday : Z;
  tm_hour : Z; tm_min : Z; tm_sec : Z;
  tm_wday : Z; tm_yday : Z; tm_isdst : Z
}.

(** A naive [datetime.datetime]. *)
Record datetime : Type := mk_datetime {
  year : Z; month : Z; day : Z;
  hour : Z; minute : Z; second : Z; microsecond : Z
}.

(** The [datetime] built from the first six fields of [t] (the slice [t[:6]]), microsecond 0. *)
Definition datetime_of (t : struct_time) : datetime :=
  mk_datetime (tm_year t) (tm_mon t) (tm_mday t)
              (tm_hour t) (tm_min t) (tm_sec t) 0.

Definition fields (d : datetime) : list Z :=
  [year d; month d; day d; hour d; minute d; second d; microsecond d].

Fixpoint lex_ltb (a b : list Z) : bool :=
  match a, b with
  | x :: a', y :: b' => (x <? y)%Z || ((x =? y)%Z && lex_ltb a' b')
  | [], _ :: _ => true
  | _, [] => false
  end.

(** [a < b] on naive datetimes compares the fields in order. *)
Definition datetime_ltb (a b : datetime) : bool := lex_ltb (fields a) (fields b).

(** Day number of a civil date and back (proleptic Gregorian calendar), for
    [datetime - timedelta(days=n)], which shifts the date and keeps the time
    of day.  Python raises [OverflowError] when the result leaves the years
    1 to 9999; the embedding covers the dates inside that range. *)
Definition days_from_civil (y m d : Z) : Z :=
  let y' := if (m <=? 2)%Z then (y - 1)%Z else y in
  let era := (y' / 400)%Z in
  let yoe := (y' - era * 400)%Z in
  let doy := ((153 * (m + (if (2 <? m)%Z then -3 else 9)) + 2) / 5 + d - 1)%Z in
  let doe := (yoe * 365 + yoe / 4 - yoe / 100 + doy)%Z in
  (era * 146097 + doe)%Z.

Definition civil_from_days (z : Z) : Z * Z * Z :=
  let era := (z / 146097)%Z in
  let doe := (z - era * 146097)%Z in
  let yoe := ((doe - doe / 1460 + doe / 36524 - doe / 146096) / 365)%Z in
  let doy := (doe - (365 * yoe + yoe / 4 - yoe / 100))%Z in
  let mp := ((5 * doy + 2) / 153)%Z in
  let d := (doy - (153 * mp + 2) / 5 + 1)%Z in
  let m := (mp + (if (mp <? 10)%Z then 3 else -9))%Z in
  ((yoe + era * 400 + (if (m <=? 2)%Z then 1 else 0))%Z, m, d).

Definition minus_days (t : datetime) (n : Z) : datetime :=
  let '(y, m, d) :=
    civil_from_days (days_from_civil (year t) (month t) (day t) - n) in
  mk_datetime y m d (hour t) (minute t) (second t) (microsecond t).

(** [strftime("%b %d, %Y")] in the C locale, for four-digit years. *)
Definition month_abbr (m : Z) : string :=
  nth (Z.to_nat (m - 1))
      ["Jan"; "Feb"; "Mar"; "Apr"; "May"; "Jun";
       "Jul"; "Aug"; "Sep"; "Oct"; "Nov"; "Dec"]%string ""%string.

Definition two_digits (n : Z) : string :=
  if (n <? 10)%Z then String.append "0" (pretty n) else pretty n.

Definition strftime_b_d_Y (d : datetime) : pystr :=
  str (String.append (month_abbr (month d))
        (String.append " "
          (String.append (two_digits (day d))
            (String.append ", " (pretty (year d)))))).

(** An entry of the parsed feed.  [None] is a field the entry does not have
    ([e.get] answers [None], [hasattr] answers [False] or the value is
    falsy). *)
Record entry : Type := mk_entry {
  e_title : option pystr;
  e_link : option pystr;
  e_summary : option pystr;
  published_parsed : option struct_time
}.

(** The dict built at lines 53-58; [None] in [title] and [link] is Python's
    [None]. *)
Record article : Type := mk_article {
  title : option pystr;
  link : option pystr;
  summary : pystr;
  published : pystr
}.

(** What the outside answers during one call: the quoted query, the entries
    of the feed parsed from a URL, and the clock. *)
Record world : Type := mk_world {
  requote_uri : pystr -> pystr;
  feed_entries : pystr -> list entry;
  utcnow : datetime
}.

Definition feed_url (w : world) (query : pystr) : pystr :=
  str "https://news.google.com/rss/search?q=" ++ requote_uri w query
  ++ str "+when:7d&hl=en-IN&gl=IN&ceid=IN:en".

(** Lines 48-50. *)
Definition pub_of (e : entry) : option datetime :=
  match published_parsed e with
  | Some t => Some (datetime_of t)
  | None => None
  end.

(** Line 51: [pub and pub < cutoff]; a datetime is always truthy. *)
Definition too_old (cutoff : datetime) (e : entry) : bool :=
  match pub_of e with
  | Some pub => datetime_ltb pub cutoff
  | None => false
  end.

(** Lines 53-58. *)
Definition article_of (e : entry) : article :=
  {| title := e_title e;
     link := e_link e;
     summary := default [] (e_summary e);
     published := match pub_of e with
                  | Some pub => strftime_b_d_Y pub
                  | None => []
                  end |}.

(** The loop of lines 47-60, [articles] being the list built so far. *)
Fixpoint fetch_loop (entries : list entry) (cutoff : datetime) (max_items : Z)
    (articles : list article) : list article :=
  match entries with
  | [] => articles
  | e :: rest =>
      if too_old cutoff e then fetch_loop rest cutoff max_items articles
      else
        let articles' := articles ++ [article_of e] in
        if (max_items <=? Z.of_nat (length articles'))%Z then articles'
        else fetch_loop rest cutoff max_items articles'
  end.

Definition fetch_google_news (w : world) (query : pystr) (days max_items : Z)
    : list article :=
  let d := feed_entries w (feed_url w query) in
  let cutoff := minus_days (utcnow w) days in
  fetch_loop d cutoff max_items [].

(** *** A feed for the examples: one recent entry, one stale entry, one
    entry without a date, one entry without a title *)

Definition recent_entry : entry :=
  mk_entry (Some (str "INFY gains")) (Some (str "https://example.org/1"))
           (Some (str "Shares rose.")) (Some (mk_struct_time 2026 11 2 8 0 0 0 306 0)).

Definition stale_entry : entry :=
  mk_entry (Some (str "Old story")) (Some (str "https://example.org/2"))
           None (Some (mk_struct_time 2026 10 1 8 0 0 3 274 0)).

Definition undated_entry : entry :=
  mk_entry (Some (str "TCS update")) (Some (str "https://example.org/3"))
           None None.

Definition untitled_entry : entry :=
  mk_entry None (Some (str "https://example.org/4")) (Some (str "No headline."))
           None.

Definition example_world (entries : list entry) : world :=
  {| requote_uri := fun q => q;
     feed_entries := fun _ => entries;
     utcnow := mk_datetime 2026 11 4 9 30 0 125 |}.

(** *** The loop as a filter followed by a cut *)

(** The entries the loop does not skip. *)
Definition kept (cutoff : datetime) (entries : list entry) : list entry :=
  filter (fun e => too_old cutoff e = false) entries.

(** The number of articles after which the loop stops: the test comes after
    the append, so the first article is always taken. *)
Definition capacity (max_items : Z) (have : nat) : nat :=
  Z.to_nat (Z.max 1 (max_items - Z.of_nat have)).

Lemma fetch_loop_take (entries : list entry) (cutoff : datetime) (max_items : Z)
    (articles : list article) :
  fetch_loop entries cutoff max_items articles =
  articles ++ take (capacity max_items (length articles))
                   (article_of <$> kept cutoff entries).
Proof.
  revert articles. unfold kept.
  induction entries as [|e rest IH]; intros articles; simpl.
  - rewrite take_nil, app_nil_r. reflexivity.
  - destruct (too_old cutoff e) eqn:Hold.
    + rewrite filter_cons_False by congruence. apply IH.
    + rewrite filter_cons_True by assumption. rewrite fmap_cons.
      rewrite length_app. simpl length.
      destruct (max_items <=? _)%Z eqn:Hfull.
      * apply Z.leb_le in Hfull.
        replace (capacity max_items (length articles)) with 1%nat
          by (unfold capacity; lia).
        reflexivity.
      * apply Z.leb_gt in Hfull. rewrite IH, length_app. simpl length.
        replace (capacity max_items (length articles))
          with (S (capacity max_items (length articles + 1)))
          by (unfold capacity; lia).
        rewrite <- app_assoc. reflexivity.
Qed.

Lemma fetch_google_news_take (w : world) (query : pystr) (days max_items : Z) :
  fetch_google_news w query days max_items =
  take (capacity max_items 0)
       (article_of <$> kept (minus_days (utcnow w) days)
                            (feed_entries w (feed_url w query))).
Proof. unfold fetch_google_news. apply fetch_loop_take. Qed.

(** The result never has more than [max(1, max_items)] articles; from
    [max_items = 1] on that is the advertised cap. *)
Lemma fetch_length_bound (w : world) (query : pystr) (days max_items : Z) :
  (Z.of_nat (length (fetch_google_news w query days max_items))
   <= Z.max 1 max_items)%Z.
Proof.
  rewrite fetch_google_news_take, length_take. unfold capacity. lia.
Qed.

Lemma fetch_length_cap (w : world) (query : pystr) (days max_items : Z) :
  (1 <= max_items)%Z ->
  (Z.of_nat (length (fetch_google_news w query days max_items)) <= max_items)%Z.
Proof.
  intros H. pose proof (fetch_length_bound w query days max_items). lia.
Qed.

(** C3 (failing input). With [max_items = 0] and a feed holding one entry
    that is not filtered out, the result has one article: the length test of
    line 59 runs only after the append of line 53. *)
Theorem fetch_zero_cap_returns_one :
  fetch_google_news (example_world [undated_entry]) (str "IPO") 7 0
    = [article_of undated_entry]
  /\ length (fetch_google_news (example_world [undated_entry]) (str "IPO") 7 0) = 1.
Proof. split; reflexivity. Qed.

(** Removing a skipped entry from the feed changes nothing. *)
Lemma kept_without_old (cutoff : datetime) (pre post : list entry) (e : entry) :
  too_old cutoff e = true ->
  kept cutoff (pre ++ e :: post) = kept cutoff (pre ++ post).
Proof.
  intros Hold. unfold kept. rewrite !filter_app.
  rewrite filter_cons_False by congruence. reflexivity.
Qed.

Lemma kept_with_fresh (cutoff : datetime) (pre post : list entry) (e : entry) :
  too_old cutoff e = false ->
  kept cutoff (pre ++ e :: post) = kept cutoff pre ++ e :: kept cutoff post.
Proof.
  intros Hold. unfold kept. rewrite !filter_app.
  rewrite filter_cons_True by assumption. reflexivity.
Qed.

(** C4. An entry whose publish time is present and strictly before the
    cutoff (now minus [days]) is left out: the result is the one for the feed
    without that entry.  An entry without publish time is taken whatever its
    age: when the cap was not reached by the entries before it, its article
    is in the result, right after theirs. *)
Theorem fetch_recency_filter (w : world) (query : pystr) (days max_items : Z)
    (pre post : list entry) (e : entry) :
  feed_entries w (feed_url w query) = pre ++ e :: post ->
  let cutoff := minus_days (utcnow w) days in
  let before := fetch_loop pre cutoff max_items [] in
  (forall t : struct_time,
      published_parsed e = Some t ->
      datetime_ltb (datetime_of t) cutoff = true ->
      fetch_google_news w query days max_items =
      fetch_loop (pre ++ post) cutoff max_items []) /\
  (published_parsed e = None ->
   (Z.of_nat (length before) < max_items)%Z ->
   fetch_google_news w query days max_items !! length before =
   Some (article_of e)).
Proof.
  intros Hfeed cutoff before. subst before.
  rewrite fetch_google_news_take, Hfeed. fold cutoff.
  rewrite !fetch_loop_take. simpl app. split.
  - intros t Ht Hlt. rewrite kept_without_old; [reflexivity|].
    unfold too_old, pub_of. rewrite Ht. exact Hlt.
  - intros Hnone Hroom.
    rewrite kept_with_fresh by (unfold too_old, pub_of; rewrite Hnone; reflexivity).
    rewrite fmap_app, fmap_cons.
    rewrite length_take in Hroom |- *.
    set (n := capacity max_items 0) in *.
    set (l := article_of <$> kept cutoff pre) in *.
    assert (Hn : (max_items <= Z.of_nat n)%Z) by (unfold n, capacity; lia).
    assert (Hl : length l < n) by lia.
    replace (n `min` length l) with (length l) by lia.
    rewrite lookup_take_lt by lia.
    rewrite lookup_app_r by lia. rewrite Nat.sub_diag. reflexivity.
Qed.

(** The stale entry of the example feed is dropped and the undated one is
    taken. *)
Lemma fetch_recency_filter_witness :
  fetch_google_news (example_world [recent_entry; stale_entry; undated_entry])
                    (str "IPO") 7 40
  = fetch_loop [recent_entry; undated_entry]
               (minus_days (mk_datetime 2026 11 4 9 30 0 125) 7) 40 []
  /\ fetch_google_news (example_world [recent_entry; stale_entry; undated_entry])
                       (str "IPO") 7 40 !! 1%nat
     = Some (article_of undated_entry).
Proof.
  split.
  - destruct (fetch_recency_filter
                (example_world [recent_entry; stale_entry; undated_entry])
                (str "IPO") 7 40 [recent_entry] [undated_entry] stale_entry
                eq_refl) as [Hold _].
    apply (Hold (mk_struct_time 2026 10 1 8 0 0 3 274 0)); reflexivity.
  - destruct (fetch_recency_filter
                (example_world [recent_entry; stale_entry; undated_entry])
                (str "IPO") 7 40 [recent_entry; stale_entry] [] undated_entry
                eq_refl) as [_ Hnew].
    apply Hnew; reflexivity.
Defined.

(** C9 (counterexample). A feed entry without a title yields an article
    whose title is [None]. *)
Lemma fetch_untitled_article :
  fetch_google_news (example_world [untitled_entry]) (str "IPO") 7 40
    = [ {| title := None;
           link := Some (str "https://example.org/4");
           summary := str "No headline.";
           published := [] |} ]
  /\ ~ Forall (fun a => is_Some (title a) /\ is_Some (link a))
         (fetch_google_news (example_world [untitled_entry]) (str "IPO") 7 40).
Proof.
  split; [reflexivity|].
  intros H. apply Forall_cons in H as [[[x Hx] _] _]. discriminate Hx.
Qed.

(** C9 (amended). Each article of the result carries the title and the link
    of an entry of the feed exactly as [e.get] answers them, so each of the
    two is present when that entry has the field and [None] when it has not;
    the summary is the entry's, or the empty string. *)
Theorem fetch_articles_from_entries (w : world) (query : pystr)
    (days max_items : Z) :
  Forall (fun a =>
            exists e : entry,
              e ∈ feed_entries w (feed_url w query) /\
              title a = e_title e /\ link a = e_link e /\
              summary a = default [] (e_summary e))
         (fetch_google_news w query days max_items).
Proof.
  rewrite fetch_google_news_take. apply Forall_forall. intros a Ha.
  apply elem_of_take in Ha as (i & Ha & _).
  apply list_lookup_fmap_Some in Ha as (e & -> & He).
  exists e. repeat split.
  apply list_elem_of_lookup_2 in He. unfold kept in He.
  apply list_elem_of_filter in He as [_ He]. exact He.
Qed.

(** *** More about the loop: size, order, early exit *)

(** X1. The result has exactly as many articles as there are entries the
    filter lets through, cut at [max_items], and at one when [max_items] is
    below one. *)
Theorem fetch_length_exact (w : world) (query : pystr) (days max_items : Z) :
  length (fetch_google_news w query days max_items) =
  Nat.min (Z.to_nat (Z.max 1 max_items))
          (length (kept (minus_days (utcnow w) days)
                        (feed_entries w (feed_url w query)))).
Proof.
  rewrite fetch_google_news_take, length_take, length_fmap.
  unfold capacity. f_equal. lia.
Qed.

(** X2. The articles come in feed order: the result is the list of the
    articles of all feed entries with some of them left out, never
    reordered and never repeated. *)
Theorem fetch_keeps_feed_order (w : world) (query : pystr)
    (days max_items : Z) :
  fetch_google_news w query days max_items
    `sublist_of` (article_of <$> feed_entries w (feed_url w query)).
Proof.
  rewrite fetch_google_news_take.
  etransitivity; [apply sublist_take|].
  apply fmap_sublist. unfold kept. apply sublist_filter.
Qed.

(** X3. A larger [max_items] only adds articles at the end: the result for
    the smaller value is a prefix of the result for the larger one. *)
Theorem fetch_prefix_monotone (w : world) (query : pystr)
    (days small large : Z) :
  (small <= large)%Z ->
  fetch_google_news w query days small
    `prefix_of` fetch_google_news w query days large.
Proof.
  intros Hle. rewrite !fetch_google_news_take.
  set (l := article_of <$> _).
  replace (take (capacity small 0) l)
    with (take (capacity small 0) (take (capacity large 0) l)).
  - apply prefix_take.
  - rewrite take_take. f_equal. unfold capacity. lia.
Qed.

Lemma fetch_prefix_monotone_witness :
  fetch_google_news (example_world [recent_entry; undated_entry; untitled_entry])
                    (str "IPO") 7 1
    `prefix_of`
  fetch_google_news (example_world [recent_entry; undated_entry; untitled_entry])
                    (str "IPO") 7 2.
Proof.
  apply (fetch_prefix_monotone
           (example_world [recent_entry; undated_entry; untitled_entry])
           (str "IPO") 7 1 2).
  lia.
Defined.

(** X4. Early exit: once the loop has collected [max_items] articles (at
    least one), whatever follows in the feed is not looked at. *)
Theorem fetch_loop_early_exit (entries more : list entry) (cutoff : datetime)
    (max_items : Z) :
  (1 <= max_items)%Z ->
  (max_items <= Z.of_nat (length (fetch_loop entries cutoff max_items [])))%Z ->
  fetch_loop (entries ++ more) cutoff max_items [] =
  fetch_loop entries cutoff max_items [].
Proof.
  intros Hpos Hfull. rewrite !fetch_loop_take in *. simpl app in *.
  rewrite length_take in Hfull. unfold kept in *.
  rewrite filter_app, fmap_app.
  apply take_app_le. unfold capacity in *. lia.
Qed.

Lemma fetch_loop_early_exit_witness :
  fetch_loop ([recent_entry; undated_entry] ++ [untitled_entry])
             (mk_datetime 2026 10 28 9 30 0 125) 2 [] =
  fetch_loop [recent_entry; undated_entry]
             (mk_datetime 2026 10 28 9 30 0 125) 2 [].
Proof.
  apply (fetch_loop_early_exit [recent_entry; undated_entry] [untitled_entry]
           (mk_datetime 2026 10 28 9 30 0 125) 2).
  - lia.
  - vm_compute. discriminate.
Defined.

Lemma str_app (a b : string) : str (String.append a b) = str a ++ str b.
Proof.
  unfold str. induction a as [|c a IH]; simpl; [reflexivity|].
  f_equal. exact IH.
Qed.

(** X5. The [published] text of an article is empty exactly when its entry
    has no publish time; a dated entry always gets a date text. *)
Theorem published_empty_iff_undated (e : entry) :
  published (article_of e) = [] <-> published_parsed e = None.
Proof.
  unfold article_of, pub_of. simpl published.
  destruct (published_parsed e) as [t|]; [|split; reflexivity].
  split; [|discriminate].
  unfold strftime_b_d_Y. rewrite !str_app. intros H.
  apply app_eq_nil in H as [_ H]. apply app_eq_nil in H as [H _].
  discriminate H.
Qed.

Lemma lex_ltb_irrefl (l : list Z) : lex_ltb l l = false.
Proof.
  induction l as [|x l IH]; simpl; [reflexivity|].
  rewrite Z.ltb_irrefl, Z.eqb_refl, IH. reflexivity.
Qed.

(** X6. The age test is strict: an entry published exactly at the cutoff is
    not skipped. *)
Theorem entry_at_cutoff_not_skipped (cutoff : datetime) (e : entry)
    (t : struct_time) :
  published_parsed e = Some t ->
  datetime_of t = cutoff ->
  too_old cutoff e = false.
Proof.
  intros Ht <-. unfold too_old, pub_of. rewrite Ht.
  apply lex_ltb_irrefl.
Qed.

Lemma entry_at_cutoff_not_skipped_witness :
  too_old (mk_datetime 2026 11 2 8 0 0 0) recent_entry = false.
Proof.
  apply (entry_at_cutoff_not_skipped (mk_datetime 2026 11 2 8 0 0 0)
           recent_entry (mk_struct_time 2026 11 2 8 0 0 0 306 0));
    reflexivity.
Defined.

Example minus_days_week :
  minus_days (mk_datetime 2026 11 4 9 30 0 125) 7 = mk_datetime 2026 10 28 9 30 0 125.
Proof. reflexivity. Qed.

Example minus_days_leap :
  minus_days (mk_datetime 2024 3 1 0 0 0 0) 1 = mk_datetime 2024 2 29 0 0 0 0
  /\ minus_days (mk_datetime 2026 1 3 0 0 0 0) 7 = mk_datetime 2025 12 27 0 0 0 0
  /\ minus_days (mk_datetime 2100 3 1 0 0 0 0) 1 = mk_datetime 2100 2 28 0 0 0 0.
Proof. repeat split. Qed.

Example strftime_example :
  strftime_b_d_Y (mk_datetime 2026 11 2 8 0 0 0) = str "Nov 02, 2026".
Proof. reflexivity. Qed.

End News.

(** ** Fundamentals Fetcher: [get_fundamentals] (lines 84-102) *)

Module Fundamentals.

Import Py.

(** The values found in the provider's info dict. *)
Inductive pyval : Type :=
| PyNone
| PyStr (s : pystr)
| PyInt (z : Z)
| PyFloat (f : float)
| PyOther.

(** [v is None]. *)
Definition is_none (v : pyval) : bool :=
  match v with PyNone => true | _ => false end.

(** What [tk.info] evaluates to: a dict, or an object without [get]
    ([None], a list, ...). *)
Inductive info_obj : Type :=
| InfoDict (d : gmap string pyval)
| InfoNoDict.

(** [d.get(key, default)]: the default is used only when the key is missing;
    a key stored with the value [None] answers [None]. *)
Definition dict_get (d : gmap string pyval) (key : string) (default : pyval)
    : pyval :=
  match d !! key with
  | Some v => v
  | None => default
  end.

(** [info.get(key, default)] on whatever [tk.info] is. *)
Definition info_get (info : info_obj) (key : string) (default : pyval)
    : res pyval :=
  match info with
  | InfoDict d => Ok (dict_get d key default)
  | InfoNoDict => Raise AttributeError
  end.

(** A snapshot: the dict returned at line 100. *)
Definition keep_value (kv : string * pyval) : Prop := is_none kv.2 = false.

#[global] Instance keep_value_dec (kv : string * pyval) : Decision (keep_value kv).
Proof. unfold keep_value. apply _. Defined.

Section Provider.

(** Lines 86-87, [yf.Ticker(ticker).info]: the provider's answer for a
    ticker, or the exception the call raised. *)
Variable ticker_info : pystr -> res info_obj.

Definition get_fundamentals (ticker : pystr) : res (option (gmap string pyval)) :=
  try_except
    (info ← ticker_info ticker;
     company ← info_get info "longName" (PyStr ticker);
     sector ← info_get info "sector" PyNone;
     industry ← info_get info "industry" PyNone;
     market_cap ← info_get info "marketCap" PyNone;
     current_price ← info_get info "currentPrice" PyNone;
     pe_ratio ← info_get info "trailingPE" PyNone;
     pb_ratio ← info_get info "priceToBook" PyNone;
     dividend_yield ← info_get info "dividendYield" PyNone;
     high ← info_get info "fiftyTwoWeekHigh" PyNone;
     low ← info_get info "fiftyTwoWeekLow" PyNone;
     let fund : gmap string pyval :=
       list_to_map
         [ ("Company", company);
           ("Sector", sector);
           ("Industry", industry);
           ("Market Cap", market_cap);
           ("Current Price", current_price);
           ("PE Ratio", pe_ratio);
           ("PB Ratio", pb_ratio);
           ("Dividend Yield", dividend_yield);
           ("52W High", high);
           ("52W Low", low) ] in
     mret (Some (filter keep_value fund)))
    (mret None).

End Provider.

(** *** Names used by the statements *)

(** The ten display names. *)
Definition display_names : list string :=
  [ "Company"; "Sector"; "Industry"; "Market Cap"; "Current Price";
    "PE Ratio"; "PB Ratio"; "Dividend Yield"; "52W High"; "52W Low" ]%string.

(** The provider field behind each display name other than Company. *)
Definition provider_fields : list (string * string) :=
  [ ("Sector", "sector"); ("Industry", "industry");
    ("Market Cap", "marketCap"); ("Current Price", "currentPrice");
    ("PE Ratio", "trailingPE"); ("PB Ratio", "priceToBook");
    ("Dividend Yield", "dividendYield"); ("52W High", "fiftyTwoWeekHigh");
    ("52W Low", "fiftyTwoWeekLow") ]%string.

(** The ten items of the dict literal of lines 88-99, for an info dict. *)
Definition fund_items (d : gmap string pyval) (ticker : pystr)
    : list (string * pyval) :=
  ("Company"%string, dict_get d "longName" (PyStr ticker))
  :: ((fun kf : string * string => (kf.1, dict_get d kf.2 PyNone))
        <$> provider_fields).

(** What line 100 returns for an info dict. *)
Definition snapshot (d : gmap string pyval) (ticker : pystr)
    : gmap string pyval :=
  filter keep_value (list_to_map (fund_items d ticker)).

(** *** Providers for the examples *)

(** A provider that knows one ticker with a full name and a sector, answers
    an empty dict for [EMPTY], a dict whose name is null for [NULLNAME], no
    dict at all for [IPO], and fails for every other ticker. *)
Definition example_info (ticker : pystr) : res info_obj :=
  if bool_decide (ticker = str "INFY.NS") then
    Ok (InfoDict (<["longName" := PyStr (str "Infosys Limited")]>
                  (<["sector" := PyStr (str "Technology")]>
                   (<["marketCap" := PyInt 6500000000000]>
                    (<["dividendYield" := PyNone]> ∅)))))
  else if bool_decide (ticker = str "EMPTY") then Ok (InfoDict ∅)
  else if bool_decide (ticker = str "NULLNAME") then
    Ok (InfoDict (<["longName" := PyNone]>
                  (<["sector" := PyStr (str "Energy")]> ∅)))
  else if bool_decide (ticker = str "IPO") then Ok InfoNoDict
  else Raise (LibraryError "HTTPError").

(** *** What the fetcher returns *)

Section ProviderFacts.

Variable ticker_info : pystr -> res info_obj.

(** The three ways a call can go. *)
Lemma get_fundamentals_cases (ticker : pystr) :
  get_fundamentals ticker_info ticker =
    match ticker_info ticker with
    | Ok (InfoDict d) => Ok (Some (snapshot d ticker))
    | Ok InfoNoDict => Ok None
    | Raise _ => Ok None
    end.
Proof.
  unfold get_fundamentals.
  destruct (ticker_info ticker) as [[d|]|e]; reflexivity.
Qed.

Lemma get_fundamentals_Some (ticker : pystr) (snap : gmap string pyval) :
  get_fundamentals ticker_info ticker = Ok (Some snap) ->
  exists d, ticker_info ticker = Ok (InfoDict d) /\ snap = snapshot d ticker.
Proof.
  rewrite get_fundamentals_cases.
  destruct (ticker_info ticker) as [[d|]|e]; intros H; try congruence.
  exists d. split; congruence.
Qed.

Lemma fund_items_keys (d : gmap string pyval) (ticker : pystr) :
  (fund_items d ticker).*1 = display_names.
Proof. reflexivity. Qed.

Lemma display_names_NoDup : NoDup display_names.
Proof. apply (bool_decide_unpack (NoDup display_names)). vm_compute. exact I. Qed.

(** A key of the snapshot is an item of the dict literal whose value is not
    [None]. *)
Lemma snapshot_lookup_Some (d : gmap string pyval) (ticker : pystr)
    (k : string) (v : pyval) :
  snapshot d ticker !! k = Some v <->
  (k, v) ∈ fund_items d ticker /\ is_none v = false.
Proof.
  unfold snapshot. rewrite map_lookup_filter_Some.
  rewrite <- elem_of_list_to_map
    by (rewrite fund_items_keys; apply display_names_NoDup).
  reflexivity.
Qed.

Lemma fund_items_elem (d : gmap string pyval) (ticker : pystr)
    (k : string) (v : pyval) :
  (k, v) ∈ fund_items d ticker <->
  (k = "Company"%string /\ v = dict_get d "longName" (PyStr ticker)) \/
  (exists f, (k, f) ∈ provider_fields /\ v = dict_get d f PyNone).
Proof.
  unfold fund_items. rewrite elem_of_cons, list_elem_of_fmap. split.
  - intros [[= -> ->] | ([k' f] & [= -> ->] & Hin)]; [left; auto|].
    right. exists f. auto.
  - intros [[-> ->] | (f & Hin & ->)]; [left; reflexivity|].
    right. exists (k, f). auto.
Qed.

Lemma dict_get_not_none (d : gmap string pyval) (f : string) (v : pyval) :
  v = dict_get d f PyNone -> is_none v = false -> d !! f = Some v.
Proof.
  unfold dict_get. destruct (d !! f) as [x|]; intros ->; [reflexivity|].
  discriminate.
Qed.

Lemma company_not_provider_field (f : string) :
  ("Company"%string, f) ∉ provider_fields.
Proof.
  unfold provider_fields. intros Hf.
  repeat (apply elem_of_cons in Hf as [Hf|Hf]; [discriminate Hf|]).
  apply elem_of_nil in Hf. exact Hf.
Qed.

Lemma snapshot_company_lookup (d : gmap string pyval) (ticker : pystr) :
  snapshot d ticker !! "Company"%string =
    match d !! "longName"%string with
    | None => Some (PyStr ticker)
    | Some PyNone => None
    | Some name => Some name
    end.
Proof.
  apply option_eq. intros v. rewrite snapshot_lookup_Some, fund_items_elem.
  unfold dict_get. split.
  - intros [[[_ ->] | (f & Hf & _)] Hv].
    + destruct (d !! "longName"%string) as [[]|]; simpl in Hv; congruence.
    + exfalso. exact (company_not_provider_field f Hf).
  - intros H. destruct (d !! "longName"%string) as [x|].
    + destruct x; try discriminate H; injection H as <-;
        (split; [left; split; reflexivity | reflexivity]).
    + injection H as <-. split; [left; split; reflexivity | reflexivity].
Qed.

(** C5 (amended). A returned snapshot has no key outside the ten display
    names and no key whose value is [None].  A key other than Company is
    there only with the non-null value the provider has for its field.
    Company is there with the provider's non-null [longName], or, when the
    provider has no [longName] at all, with the queried ticker. *)
Theorem snapshot_keys_and_values (ticker : pystr) (snap : gmap string pyval) :
  get_fundamentals ticker_info ticker = Ok (Some snap) ->
  exists d : gmap string pyval,
    ticker_info ticker = Ok (InfoDict d) /\
    forall (k : string) (v : pyval),
      snap !! k = Some v ->
      k ∈ display_names /\ v <> PyNone /\
      ((exists f, (k, f) ∈ provider_fields /\ d !! f = Some v) \/
       (k = "Company"%string /\
        (d !! "longName"%string = Some v \/
         (d !! "longName"%string = None /\ v = PyStr ticker)))).
Proof.
  intros Hget. apply get_fundamentals_Some in Hget as (d & Hinfo & ->).
  exists d. split; [exact Hinfo|]. intros k v Hk.
  apply snapshot_lookup_Some in Hk as [Hin Hv].
  split; [|split].
  - rewrite <- (fund_items_keys d ticker).
    apply list_elem_of_fmap. exists (k, v). auto.
  - intros ->. discriminate Hv.
  - apply fund_items_elem in Hin as [[-> Hc] | (f & Hf & Hd)].
    + right. split; [reflexivity|]. unfold dict_get in Hc.
      destruct (d !! "longName"%string) as [x|]; [left | right]; subst; auto.
    + left. exists f. split; [exact Hf|].
      apply dict_get_not_none; assumption.
Qed.

(** C10 (amended). In a returned snapshot the key Company is decided by the
    provider's [longName]: missing, Company is the queried ticker; present
    and not null, Company is that name; present and null, the snapshot has
    no Company key. *)
Theorem snapshot_company (ticker : pystr) (snap : gmap string pyval) :
  get_fundamentals ticker_info ticker = Ok (Some snap) ->
  exists d : gmap string pyval,
    ticker_info ticker = Ok (InfoDict d) /\
    snap !! "Company"%string =
      match d !! "longName"%string with
      | None => Some (PyStr ticker)
      | Some PyNone => None
      | Some name => Some name
      end.
Proof.
  intros Hget. apply get_fundamentals_Some in Hget as (d & Hinfo & ->).
  exists d. split; [exact Hinfo|].
  apply snapshot_company_lookup.
Qed.

(** C6. [get_fundamentals] never hands an exception to its caller: whatever
    the provider does, the call returns; when the provider call raised, or
    there is no info dict, it returns [None]. *)
Theorem get_fundamentals_never_raises (ticker : pystr) :
  (exists r, get_fundamentals ticker_info ticker = Ok r) /\
  (forall e, get_fundamentals ticker_info ticker <> Raise e) /\
  (forall e, ticker_info ticker = Raise e ->
             get_fundamentals ticker_info ticker = Ok None) /\
  (ticker_info ticker = Ok InfoNoDict ->
   get_fundamentals ticker_info ticker = Ok None).
Proof.
  rewrite get_fundamentals_cases.
  destruct (ticker_info ticker) as [[d|]|e0]; repeat split;
    try (eexists; reflexivity); try congruence.
Qed.

(** *** What the snapshot holds, and what it depends on *)

(** X11. Nothing the provider has is lost: every one of the nine provider
    fields that is present with a non-null value appears in the returned
    snapshot under its display name, with that value. *)
Theorem snapshot_has_provider_values (ticker : pystr) (d : gmap string pyval)
    (k f : string) (v : pyval) :
  ticker_info ticker = Ok (InfoDict d) ->
  (k, f) ∈ provider_fields ->
  d !! f = Some v ->
  v <> PyNone ->
  exists snap,
    get_fundamentals ticker_info ticker = Ok (Some snap) /\
    snap !! k = Some v.
Proof.
  intros Hinfo Hkf Hd Hv. rewrite get_fundamentals_cases, Hinfo.
  exists (snapshot d ticker). split; [reflexivity|].
  apply snapshot_lookup_Some. split.
  - apply fund_items_elem. right. exists f. split; [exact Hkf|].
    unfold dict_get. rewrite Hd. reflexivity.
  - destruct v; try reflexivity. contradiction.
Qed.

Lemma fund_items_agree (d1 d2 : gmap string pyval) (ticker : pystr) :
  (forall f, f ∈ "longName"%string :: provider_fields.*2 ->
             d1 !! f = d2 !! f) ->
  fund_items d1 ticker = fund_items d2 ticker.
Proof.
  intros Hsame.
  assert (Hget : forall f x, f ∈ "longName"%string :: provider_fields.*2 ->
                             dict_get d1 f x = dict_get d2 f x).
  { intros f x Hf. unfold dict_get. rewrite (Hsame f Hf). reflexivity. }
  unfold fund_items, provider_fields. cbn [fmap list_fmap fst snd].
  repeat match goal with
         | |- context [dict_get d1 ?f ?x] =>
             rewrite (Hget f x)
               by (unfold provider_fields; cbn [fmap list_fmap fst snd];
                   repeat constructor)
         end.
  reflexivity.
Qed.

(** The snapshot has at most one entry per display name. *)
Lemma snapshot_size (d : gmap string pyval) (ticker : pystr) :
  size (snapshot d ticker) <= 10.
Proof.
  unfold snapshot.
  etransitivity; [apply map_subseteq_size, map_filter_subseteq|].
  rewrite map_size_list_to_map
    by (rewrite fund_items_keys; apply display_names_NoDup).
  reflexivity.
Qed.

(** X13. A returned snapshot has at most ten entries. *)
Theorem snapshot_at_most_ten (ticker : pystr) (snap : gmap string pyval) :
  get_fundamentals ticker_info ticker = Ok (Some snap) ->
  size snap <= 10.
Proof.
  intros Hget. apply get_fundamentals_Some in Hget as (d & _ & ->).
  apply snapshot_size.
Qed.

(** [None] is returned in the two failure cases only: whenever the provider
    hands out a dict, a snapshot is returned. *)
Lemma get_fundamentals_None_iff (ticker : pystr) :
  get_fundamentals ticker_info ticker = Ok None <->
  (exists e, ticker_info ticker = Raise e) \/ ticker_info ticker = Ok InfoNoDict.
Proof.
  rewrite get_fundamentals_cases.
  destruct (ticker_info ticker) as [[d|]|e].
  - split; [congruence|]. intros [[e He] | H]; congruence.
  - split; [right; reflexivity | reflexivity].
  - split; [left; exists e; reflexivity | reflexivity].
Qed.

End ProviderFacts.

(** X12. The fetcher reads the ten provider fields and nothing else: two
    info dicts that agree on [longName] and on the nine other fields give the
    same result, whatever else they hold. *)
Theorem get_fundamentals_reads_ten_fields
    (info1 info2 : pystr -> res info_obj) (ticker : pystr)
    (d1 d2 : gmap string pyval) :
  info1 ticker = Ok (InfoDict d1) ->
  info2 ticker = Ok (InfoDict d2) ->
  (forall f, f ∈ "longName"%string :: provider_fields.*2 ->
             d1 !! f = d2 !! f) ->
  get_fundamentals info1 ticker = get_fundamentals info2 ticker.
Proof.
  intros H1 H2 Hsame. rewrite !get_fundamentals_cases, H1, H2.
  unfold snapshot. rewrite (fund_items_agree d1 d2 ticker Hsame).
  reflexivity.
Qed.

(** *** The fetcher on the example provider *)

Definition infy_info : gmap string pyval :=
  <["longName" := PyStr (str "Infosys Limited")]>
    (<["sector" := PyStr (str "Technology")]>
     (<["marketCap" := PyInt 6500000000000]>
      (<["dividendYield" := PyNone]> ∅))).

Example get_fundamentals_infy :
  get_fundamentals example_info (str "INFY.NS") =
  Ok (Some (list_to_map
              [ ("Company"%string, PyStr (str "Infosys Limited"));
                ("Sector"%string, PyStr (str "Technology"));
                ("Market Cap"%string, PyInt 6500000000000) ])).
Proof. vm_compute. reflexivity. Qed.

(** The snapshot of the example provider for [INFY.NS]: three keys, each
    with the provider's value. *)
Lemma snapshot_keys_and_values_witness :
  exists d : gmap string pyval,
    example_info (str "INFY.NS") = Ok (InfoDict d) /\
    forall (k : string) (v : pyval),
      snapshot infy_info (str "INFY.NS") !! k = Some v ->
      k ∈ display_names /\ v <> PyNone /\
      ((exists f, (k, f) ∈ provider_fields /\ d !! f = Some v) \/
       (k = "Company"%string /\
        (d !! "longName"%string = Some v \/
         (d !! "longName"%string = None /\ v = PyStr (str "INFY.NS"))))).
Proof.
  apply (snapshot_keys_and_values example_info (str "INFY.NS")).
  reflexivity.
Defined.

(** C5 (counterexample). The provider has no [longName] for the ticker, yet
    the snapshot has the key Company. *)
Lemma snapshot_company_without_name :
  example_info (str "EMPTY") = Ok (InfoDict ∅)
  /\ (∅ : gmap string pyval) !! "longName"%string = None
  /\ get_fundamentals example_info (str "EMPTY")
     = Ok (Some {[ "Company"%string := PyStr (str "EMPTY") ]}).
Proof.
  split; [reflexivity|]. split; [reflexivity|]. vm_compute. reflexivity.
Qed.

(** With no [longName] at the provider, Company is the ticker. *)
Lemma snapshot_company_witness :
  exists d : gmap string pyval,
    example_info (str "EMPTY") = Ok (InfoDict d) /\
    snapshot ∅ (str "EMPTY") !! "Company"%string =
      match d !! "longName"%string with
      | None => Some (PyStr (str "EMPTY"))
      | Some PyNone => None
      | Some name => Some name
      end.
Proof.
  apply (snapshot_company example_info (str "EMPTY")). reflexivity.
Defined.

(** C10 (counterexample). The provider's [longName] is null: a snapshot is
    returned, it has a Sector, and it has no Company key. *)
Lemma snapshot_without_company :
  get_fundamentals example_info (str "NULLNAME")
    = Ok (Some {[ "Sector"%string := PyStr (str "Energy") ]})
  /\ ({[ "Sector"%string := PyStr (str "Energy") ]} : gmap string pyval)
       !! "Company"%string = None.
Proof. split; vm_compute; reflexivity. Qed.

(** A provider call that raises, and an info object that is no dict. *)
Lemma get_fundamentals_never_raises_witness :
  get_fundamentals example_info (str "RELIANCE") = Ok None /\
  get_fundamentals example_info (str "IPO") = Ok None.
Proof.
  split.
  - destruct (get_fundamentals_never_raises example_info (str "RELIANCE"))
      as (_ & _ & Hraise & _).
    apply (Hraise (LibraryError "HTTPError")). reflexivity.
  - destruct (get_fundamentals_never_raises example_info (str "IPO"))
      as (_ & _ & _ & Hnone).
    apply Hnone. reflexivity.
Defined.

(** The market cap of the example provider shows up under its display
    name. *)
Lemma snapshot_has_provider_values_witness :
  exists snap,
    get_fundamentals example_info (str "INFY.NS") = Ok (Some snap) /\
    snap !! "Market Cap"%string = Some (PyInt 6500000000000).
Proof.
  apply (snapshot_has_provider_values example_info (str "INFY.NS") infy_info
           "Market Cap" "marketCap" (PyInt 6500000000000)).
  - reflexivity.
  - unfold provider_fields. repeat constructor.
  - vm_compute. reflexivity.
  - discriminate.
Defined.

(** A provider that also reports a currency, which the fetcher never reads. *)
Definition example_info_more (ticker : pystr) : res info_obj :=
  Ok (InfoDict (<["currency" := PyStr (str "INR")]> infy_info)).

Lemma get_fundamentals_reads_ten_fields_witness :
  get_fundamentals example_info (str "INFY.NS") =
  get_fundamentals example_info_more (str "INFY.NS").
Proof.
  apply (get_fundamentals_reads_ten_fields example_info example_info_more
           (str "INFY.NS") infy_info
           (<["currency" := PyStr (str "INR")]> infy_info)).
  - reflexivity.
  - reflexivity.
  - intros f Hf. symmetry. apply lookup_insert_ne. intros <-.
    revert Hf. apply (bool_decide_eq_false_1 _). vm_compute. reflexivity.
Defined.

Lemma snapshot_at_most_ten_witness :
  size (snapshot infy_info (str "INFY.NS")) <= 10.
Proof.
  apply (snapshot_at_most_ten example_info (str "INFY.NS")). reflexivity.
Defined.

End Fundamentals.

(** ** Chart Renderer: [get_stock_chart] (lines 105-120) *)

Module Chart.

Import Py.

(** A price table: the dates of the index and the named columns. *)
Record dataframe : Type := mk_dataframe {
  df_index : list Z;
  df_columns : list (string * list float)
}.

(** [df.empty]: one of the two axes has length 0. *)
Definition df_empty (df : dataframe) : bool :=
  (length (df_index df) =? 0)%nat || (length (df_columns df) =? 0)%nat.

(** [df[col]]: the column, or [KeyError]. *)
Fixpoint column (cols : list (string * list float)) (col : string)
    : res (list float) :=
  match cols with
  | [] => Raise KeyError
  | (name, values) :: rest =>
      if String.eqb name col then Ok values else column rest col
  end.

Definition df_getitem (df : dataframe) (col : string) : res (list float) :=
  column (df_columns df) col.

(** An [io.BytesIO]: its bytes and the position of its cursor. *)
Record bytes_io : Type := mk_bytes_io {
  buf_bytes : list N;
  buf_pos : nat
}.

Definition seek (b : bytes_io) (pos : nat) : bytes_io :=
  mk_bytes_io (buf_bytes b) pos.

Section Plot.

(** [yf.download(ticker, period=...)]: the price history, or the exception
    raised. *)
Variable yf_download : pystr -> string -> res dataframe.

(** Lines 109-116: matplotlib draws the close prices over the index under
    the given title and [savefig(format="png")] encodes the figure; the
    answer is the encoded bytes, or the exception raised on the way. *)
Variable savefig_png : list Z -> list float -> pystr -> res (list N).

Definition get_stock_chart (ticker : pystr) : res (option bytes_io) :=
  try_except
    (df ← yf_download ticker "3mo";
     if df_empty df then mret None
     else
       close ← df_getitem df "Close";
       png ← savefig_png (df_index df) close (ticker ++ str " - 3 Month Trend");
       let buf := mk_bytes_io png (length png) in
       mret (Some (seek buf 0)))
    (mret None).

(** Everything between the download and the return, for a table that is not
    empty. *)
Definition render (ticker : pystr) (df : dataframe) : res (list N) :=
  close ← df_getitem df "Close";
  savefig_png (df_index df) close (ticker ++ str " - 3 Month Trend").

End Plot.

(** *** Outside answers for the examples *)

Definition example_download (ticker : pystr) (period : string) : res dataframe :=
  if bool_decide (ticker = str "INFY.NS") then
    Ok (mk_dataframe [20261102; 20261103]%Z
          [("Open"%string, [1500.0; 1510.5]%float);
           ("Close"%string, [1508.25; 1499.0]%float)])
  else if bool_decide (ticker = str "EMPTY") then Ok (mk_dataframe [] [])
  else if bool_decide (ticker = str "NULLNAME") then
    Ok (mk_dataframe [20261102]%Z [("Open"%string, [10.0]%float)])
  else Raise (LibraryError "HTTPError").

(** Stands for the encoder: the PNG signature followed by one byte per
    price. *)
Definition example_savefig (index : list Z) (close : list float) (title : pystr)
    : res (list N) :=
  Ok ([137; 80; 78; 71; 13; 10; 26; 10]%N ++ ((fun _ => 0%N) <$> close)).

Section PlotFacts.

Variable yf_download : pystr -> string -> res dataframe.
Variable savefig_png : list Z -> list float -> pystr -> res (list N).

Lemma get_stock_chart_unfold (ticker : pystr) :
  get_stock_chart yf_download savefig_png ticker =
    match yf_download ticker "3mo" with
    | Raise _ => Ok None
    | Ok df =>
        if df_empty df then Ok None
        else match render savefig_png ticker df with
             | Raise _ => Ok None
             | Ok png => Ok (Some (mk_bytes_io png 0))
             end
    end.
Proof.
  unfold get_stock_chart, render.
  destruct (yf_download ticker "3mo") as [df|e]; [|reflexivity].
  cbn. destruct (df_empty df); [reflexivity|].
  destruct (df_getitem df "Close") as [close|e]; [|reflexivity].
  cbn. destruct (savefig_png _ _ _) as [png|e]; reflexivity.
Qed.

(** C7. [get_stock_chart] returns [None] when the downloaded table is
    empty, and also when the download or any step of the rendering raises;
    it never raises itself.  In the remaining case it returns the in-memory
    buffer holding the PNG bytes the encoder produced, rewound to its
    start. *)
Theorem get_stock_chart_cases (ticker : pystr) :
  (forall e, get_stock_chart yf_download savefig_png ticker <> Raise e) /\
  (forall e, yf_download ticker "3mo" = Raise e ->
             get_stock_chart yf_download savefig_png ticker = Ok None) /\
  (forall df, yf_download ticker "3mo" = Ok df ->
     (df_empty df = true ->
      get_stock_chart yf_download savefig_png ticker = Ok None) /\
     (forall e, df_empty df = false ->
                render savefig_png ticker df = Raise e ->
                get_stock_chart yf_download savefig_png ticker = Ok None) /\
     (forall png, df_empty df = false ->
                  render savefig_png ticker df = Ok png ->
                  get_stock_chart yf_download savefig_png ticker =
                  Ok (Some {| buf_bytes := png; buf_pos := 0 |}))).
Proof.
  rewrite get_stock_chart_unfold. split; [|split].
  - intros e. destruct (yf_download ticker "3mo") as [df|e0]; [|congruence].
    destruct (df_empty df); [congruence|].
    destruct (render savefig_png ticker df); congruence.
  - intros e ->. reflexivity.
  - intros df ->. split; [|split].
    + intros ->. reflexivity.
    + intros e -> ->. reflexivity.
    + intros png -> ->. reflexivity.
Qed.

End PlotFacts.

(** A failed download, an empty table, a table without a Close column, and
    a table that is drawn. *)
Lemma get_stock_chart_cases_witness :
  get_stock_chart example_download example_savefig (str "RELIANCE") = Ok None
  /\ get_stock_chart example_download example_savefig (str "EMPTY") = Ok None
  /\ get_stock_chart example_download example_savefig (str "NULLNAME") = Ok None
  /\ get_stock_chart example_download example_savefig (str "INFY.NS") =
     Ok (Some {| buf_bytes := [137; 80; 78; 71; 13; 10; 26; 10; 0; 0]%N;
                 buf_pos := 0 |}).
Proof.
  split; [|split; [|split]].
  - destruct (get_stock_chart_cases example_download example_savefig
                (str "RELIANCE")) as (_ & Hraise & _).
    apply (Hraise (LibraryError "HTTPError")). reflexivity.
  - destruct (get_stock_chart_cases example_download example_savefig
                (str "EMPTY")) as (_ & _ & Hdf).
    destruct (Hdf (mk_dataframe [] []) eq_refl) as (Hempty & _).
    apply Hempty. reflexivity.
  - destruct (get_stock_chart_cases example_download example_savefig
                (str "NULLNAME")) as (_ & _ & Hdf).
    destruct (Hdf (mk_dataframe [20261102]%Z [("Open"%string, [10.0]%float)])
                eq_refl) as (_ & Hfail & _).
    apply (Hfail KeyError); reflexivity.
  - destruct (get_stock_chart_cases example_download example_savefig
                (str "INFY.NS")) as (_ & _ & Hdf).
    destruct (Hdf _ eq_refl) as (_ & _ & Hpng).
    apply Hpng; reflexivity.
Defined.

End Chart.

(** ** Presentation Layer: the expansion panel of one headline (lines 147-162) *)

Module Panel.

Import Py Fundamentals Chart.

(** What the panel does, in order: its calls of the two fetchers and its
    calls of the page renderer. *)
Inductive ui_call : Type :=
| CallFundamentals (t : pystr)
| Heading (company : pyval)
| CardOpen
| Table (rows : list (string * pyval))
| CardClose
| CallChart (t : pystr)
| Image (chart : bytes_io)
| Info (text : string).

(** [if fund:] is false for [None] and for the empty dict. *)
Definition truthy (fund : option (gmap string pyval)) : bool :=
  match fund with
  | Some snap => negb (size snap =? 0)%nat
  | None => false
  end.

(** Lines 152-156: the heading with [fund.get('Company','')] and the table
    of the items inside the card.  The rows are listed in the order of the
    finite map, the dict lists them in insertion order; nothing below depends
    on the order. *)
Definition show_fundamentals (snap : gmap string pyval) : list ui_call :=
  [ Heading (dict_get snap "Company" (PyStr []));
    CardOpen; Table (map_to_list snap); CardClose ].

Definition no_ticker_notice : string := "No valid ticker found in this headline.".

Section Expander.

Variable unicode_alnum : N -> bool.
Variable ticker_info : pystr -> res info_obj.
Variable yf_download : pystr -> string -> res dataframe.
Variable savefig_png : list Z -> list float -> pystr -> res (list N).

(** The [for ... else] of lines 149-162 over the candidates still to try:
    the calls made, and the exception that ended them, if any. *)
Fixpoint try_tickers (tickers : list pystr) : list ui_call * option exn :=
  match tickers with
  | [] => ([Info no_ticker_notice], None)
  | t :: rest =>
      match get_fundamentals ticker_info t with
      | Raise e => ([CallFundamentals t], Some e)
      | Ok fund =>
          if truthy fund then
            let shown :=
              CallFundamentals t
              :: show_fundamentals (default ∅ fund) ++ [CallChart t] in
            match get_stock_chart yf_download savefig_png t with
            | Raise e => (shown, Some e)
            | Ok (Some chart) => (shown ++ [Image chart], None)
            | Ok None => (shown, None)
            end
          else
            let later := try_tickers rest in
            (CallFundamentals t :: later.1, later.2)
      end
  end.

(** Lines 148-162. *)
Definition expander (title : pystr) : list ui_call * option exn :=
  try_tickers (Ticker.detect_ticker unicode_alnum title).

(** *** Reading a trace *)

(** A candidate resolves when the test of line 151 passes. *)
Definition resolves (t : pystr) : bool :=
  match get_fundamentals ticker_info t with
  | Ok fund => truthy fund
  | Raise _ => false
  end.

Definition fundamentals_calls (trace : list ui_call) : list pystr :=
  omap (fun c => match c with CallFundamentals t => Some t | _ => None end) trace.

Definition chart_calls (trace : list ui_call) : list pystr :=
  omap (fun c => match c with CallChart t => Some t | _ => None end) trace.

Definition tables (trace : list ui_call) : list (list (string * pyval)) :=
  omap (fun c => match c with Table rows => Some rows | _ => None end) trace.

Definition notices (trace : list ui_call) : list string :=
  omap (fun c => match c with Info text => Some text | _ => None end) trace.

Definition images (trace : list ui_call) : list bytes_io :=
  omap (fun c => match c with Image chart => Some chart | _ => None end) trace.

(** What is shown for a candidate that resolves. *)
Definition fund_block (t : pystr) : list ui_call :=
  match get_fundamentals ticker_info t with
  | Ok (Some snap) =>
      show_fundamentals snap
      ++ CallChart t
         :: match get_stock_chart yf_download savefig_png t with
            | Ok (Some chart) => [Image chart]
            | _ => []
            end
  | _ => []
  end.

End Expander.

(** *** The search over the candidates *)

Section ExpanderFacts.

Variable unicode_alnum : N -> bool.
Variable ticker_info : pystr -> res info_obj.
Variable yf_download : pystr -> string -> res dataframe.
Variable savefig_png : list Z -> list float -> pystr -> res (list N).

Local Abbreviation try_tickers' :=
  (try_tickers ticker_info yf_download savefig_png).
Local Abbreviation resolves' := (resolves ticker_info).
Local Abbreviation fund_block' :=
  (fund_block ticker_info yf_download savefig_png).

(** A candidate resolves exactly when the fetcher returned a snapshot with
    at least one key. *)
Lemma resolves_iff (t : pystr) :
  resolves' t = true <->
  exists snap, get_fundamentals ticker_info t = Ok (Some snap) /\ snap <> ∅.
Proof.
  unfold resolves.
  destruct (get_fundamentals ticker_info t) as [[snap|]|e]; cbn [truthy].
  - rewrite negb_true_iff, Nat.eqb_neq, map_size_non_empty_iff. split.
    + intros Hne. exists snap. split; [reflexivity | exact Hne].
    + intros (snap' & [= <-] & Hne). exact Hne.
  - split; [discriminate|]. intros (snap & H & _). discriminate H.
  - split; [discriminate|]. intros (snap & H & _). discriminate H.
Qed.

(** A snapshot is empty only if the provider's [longName] is null. *)
Lemma snapshot_empty_name_null (d : gmap string pyval) (t : pystr) :
  snapshot d t = ∅ -> d !! "longName"%string = Some PyNone.
Proof.
  intros Hempty.
  pose proof (snapshot_company_lookup d t) as Hc.
  rewrite Hempty, lookup_empty in Hc.
  destruct (d !! "longName"%string) as [[]|]; congruence.
Qed.

(** One round of the loop: a candidate that resolves ends it, any other
    candidate costs one call and the loop goes on. *)
Lemma try_tickers_cons (t : pystr) (rest : list pystr) :
  try_tickers' (t :: rest) =
    if resolves' t then (CallFundamentals t :: fund_block' t, None)
    else (CallFundamentals t :: (try_tickers' rest).1, (try_tickers' rest).2).
Proof.
  cbn [try_tickers]. unfold resolves, fund_block.
  rewrite (get_fundamentals_cases ticker_info t).
  destruct (ticker_info t) as [[d|]|e]; try reflexivity.
  generalize (snapshot d t). intros snap. cbn [truthy default].
  destruct (negb (size snap =? 0)%nat); [|reflexivity].
  rewrite (get_stock_chart_unfold yf_download savefig_png t).
  destruct (yf_download t "3mo") as [df|e]; [|reflexivity].
  destruct (df_empty df); [reflexivity|].
  destruct (render savefig_png t df) as [png|e]; reflexivity.
Qed.

Lemma try_tickers_none (l : list pystr) :
  (forall t, t ∈ l -> resolves' t = false) ->
  try_tickers' l = ((CallFundamentals <$> l) ++ [Info no_ticker_notice], None).
Proof.
  induction l as [|t rest IH]; intros Hno; [reflexivity|].
  rewrite try_tickers_cons, (Hno t) by (apply elem_of_cons; auto).
  rewrite IH by (intros t' Ht'; apply Hno, elem_of_cons; auto).
  reflexivity.
Qed.

Lemma try_tickers_first (pre post : list pystr) (t : pystr) :
  (forall t', t' ∈ pre -> resolves' t' = false) ->
  resolves' t = true ->
  try_tickers' (pre ++ t :: post) =
  ((CallFundamentals <$> pre) ++ CallFundamentals t :: fund_block' t, None).
Proof.
  induction pre as [|p pre IH]; intros Hno Hyes; simpl app.
  - rewrite try_tickers_cons, Hyes. reflexivity.
  - rewrite try_tickers_cons, (Hno p) by (apply elem_of_cons; auto).
    rewrite IH; [reflexivity | | exact Hyes].
    intros t' Ht'. apply Hno, elem_of_cons. auto.
Qed.

(** Either no candidate resolves, or there is a first one that does. *)
Lemma first_resolving (l : list pystr) :
  (forall t, t ∈ l -> resolves' t = false) \/
  (exists pre t post,
      l = pre ++ t :: post /\
      (forall t', t' ∈ pre -> resolves' t' = false) /\
      resolves' t = true).
Proof.
  induction l as [|t rest IH].
  - left. intros t Ht. apply elem_of_nil in Ht. contradiction.
  - destruct (resolves' t) eqn:Ht.
    + right. exists [], t, rest. repeat split; [|exact Ht].
      intros t' Ht'. apply elem_of_nil in Ht'. contradiction.
    + destruct IH as [Hno | (pre & u & post & -> & Hno & Hyes)].
      * left. intros t' Ht'. apply elem_of_cons in Ht' as [-> | Ht']; auto.
      * right. exists (t :: pre), u, post. repeat split; [|exact Hyes].
        intros t' Ht'. apply elem_of_cons in Ht' as [-> | Ht']; auto.
Qed.

Lemma calls_of_calls (l : list pystr) :
  fundamentals_calls (CallFundamentals <$> l) = l
  /\ tables (CallFundamentals <$> l) = []
  /\ chart_calls (CallFundamentals <$> l) = []
  /\ notices (CallFundamentals <$> l) = [].
Proof.
  induction l as [|t l (IH1 & IH2 & IH3 & IH4)]; [repeat split|].
  unfold fundamentals_calls, tables, chart_calls, notices in *.
  rewrite fmap_cons. cbn [omap list_omap]. rewrite IH1, IH2, IH3, IH4.
  repeat split.
Qed.

(** The block of a resolving candidate: one table, one chart call, no
    further fundamentals call and no notice. *)
Lemma fund_block_trace (t : pystr) :
  resolves' t = true ->
  fundamentals_calls (fund_block' t) = []
  /\ length (tables (fund_block' t)) = 1
  /\ chart_calls (fund_block' t) = [t]
  /\ notices (fund_block' t) = [].
Proof.
  unfold resolves, fund_block.
  destruct (get_fundamentals ticker_info t) as [[snap|]|e]; try discriminate.
  intros _.
  destruct (get_stock_chart yf_download savefig_png t) as [[chart|]|e];
    repeat split.
Qed.

(** The whole trace, for any list of candidates. *)
Lemma try_tickers_trace (l : list pystr) :
  (try_tickers' l).2 = None /\
  fundamentals_calls (try_tickers' l).1 `prefix_of` l /\
  length (tables (try_tickers' l).1) <= 1 /\
  (forall pre t post,
      l = pre ++ t :: post ->
      (forall t', t' ∈ pre -> resolves' t' = false) ->
      resolves' t = true ->
      fundamentals_calls (try_tickers' l).1 = pre ++ [t] /\
      length (tables (try_tickers' l).1) = 1 /\
      chart_calls (try_tickers' l).1 = [t] /\
      notices (try_tickers' l).1 = []) /\
  ((forall t, t ∈ l -> resolves' t = false) ->
   (try_tickers' l).1 = (CallFundamentals <$> l) ++ [Info no_ticker_notice] /\
   fundamentals_calls (try_tickers' l).1 = l /\
   tables (try_tickers' l).1 = [] /\
   notices (try_tickers' l).1 = [no_ticker_notice]) /\
  (l = [] -> (try_tickers' l).1 = [Info no_ticker_notice]).
Proof.
  assert (Hfound : forall pre t post,
             l = pre ++ t :: post ->
             (forall t', t' ∈ pre -> resolves' t' = false) ->
             resolves' t = true ->
             (try_tickers' l).2 = None /\
             fundamentals_calls (try_tickers' l).1 = pre ++ [t] /\
             length (tables (try_tickers' l).1) = 1 /\
             chart_calls (try_tickers' l).1 = [t] /\
             notices (try_tickers' l).1 = []).
  { intros pre t post -> Hno Hyes.
    rewrite (try_tickers_first pre post t Hno Hyes). cbn [fst snd].
    destruct (calls_of_calls pre) as (C1 & C2 & C3 & C4).
    destruct (fund_block_trace t Hyes) as (B1 & B2 & B3 & B4).
    unfold fundamentals_calls, tables, chart_calls, notices in *.
    rewrite !omap_app. cbn [omap list_omap].
    rewrite C1, C2, C3, C4, B1, B3, B4. cbn [app]. rewrite B2.
    repeat split. }
  assert (Hnone : (forall t, t ∈ l -> resolves' t = false) ->
             (try_tickers' l).2 = None /\
             (try_tickers' l).1 = (CallFundamentals <$> l) ++ [Info no_ticker_notice] /\
             fundamentals_calls (try_tickers' l).1 = l /\
             tables (try_tickers' l).1 = [] /\
             notices (try_tickers' l).1 = [no_ticker_notice]).
  { intros Hno. rewrite (try_tickers_none l Hno). cbn [fst snd].
    destruct (calls_of_calls l) as (C1 & C2 & C3 & C4).
    unfold fundamentals_calls, tables, chart_calls, notices in *.
    rewrite !omap_app. cbn [omap list_omap]. rewrite C1, C2, C4.
    rewrite app_nil_r. repeat split. }
  split; [|split; [|split; [|split; [|split]]]].
  - destruct (first_resolving l) as [Hno | (pre & t & post & Hl & Hno & Hyes)].
    + apply Hnone, Hno.
    + apply (Hfound pre t post Hl Hno Hyes).
  - destruct (first_resolving l) as [Hno | (pre & t & post & Hl & Hno & Hyes)].
    + destruct (Hnone Hno) as (_ & _ & -> & _). reflexivity.
    + destruct (Hfound pre t post Hl Hno Hyes) as (_ & -> & _).
      rewrite Hl. exists post. rewrite <- app_assoc. reflexivity.
  - destruct (first_resolving l) as [Hno | (pre & t & post & Hl & Hno & Hyes)].
    + destruct (Hnone Hno) as (_ & _ & _ & -> & _). simpl. lia.
    + destruct (Hfound pre t post Hl Hno Hyes) as (_ & _ & -> & _). lia.
  - intros pre t post Hl Hno Hyes. apply (Hfound pre t post Hl Hno Hyes).
  - intros Hno. apply (Hnone Hno).
  - intros ->. reflexivity.
Qed.

(** C8. In the panel of a headline the candidates are tried in the order
    the detector gives them, one fundamentals call per candidate tried (the
    calls made are a prefix of the candidate list).  A candidate resolves
    when the test [if fund:] passes, that is, when the fetcher returned a
    snapshot with at least one key.  The loop stops at the
    first candidate that resolves: the calls are exactly the candidates up to
    and including it, one table is shown, the chart is asked for that same
    candidate, and no notice is shown; at most one table is shown in any
    case.  When no candidate resolves, every candidate was called once and
    the notice is shown instead; with no candidate at all the notice is the
    only thing that happens.  No exception leaves the panel. *)
Theorem expander_first_resolving (title : pystr) :
  let tickers := Ticker.detect_ticker unicode_alnum title in
  let run := expander unicode_alnum ticker_info yf_download savefig_png title in
  run.2 = None /\
  fundamentals_calls run.1 `prefix_of` tickers /\
  length (tables run.1) <= 1 /\
  (forall pre t post,
      tickers = pre ++ t :: post ->
      (forall t', t' ∈ pre -> resolves' t' = false) ->
      resolves' t = true ->
      fundamentals_calls run.1 = pre ++ [t] /\
      length (tables run.1) = 1 /\
      chart_calls run.1 = [t] /\
      notices run.1 = []) /\
  ((forall t, t ∈ tickers -> resolves' t = false) ->
   run.1 = (CallFundamentals <$> tickers) ++ [Info no_ticker_notice] /\
   fundamentals_calls run.1 = tickers /\
   tables run.1 = [] /\
   notices run.1 = [no_ticker_notice]) /\
  (tickers = [] -> run.1 = [Info no_ticker_notice]).
Proof.
  intros tickers run. subst run tickers. unfold expander.
  apply try_tickers_trace.
Qed.

(** *** What every panel shows *)

Lemma fund_block_images (t : pystr) :
  resolves' t = true ->
  images (fund_block' t) =
    match get_stock_chart yf_download savefig_png t with
    | Ok (Some chart) => [chart]
    | _ => []
    end.
Proof.
  unfold resolves, fund_block.
  destruct (get_fundamentals ticker_info t) as [[snap|]|e]; try discriminate.
  intros _.
  destruct (get_stock_chart yf_download savefig_png t) as [[chart|]|e];
    reflexivity.
Qed.

Lemma images_of_calls (l : list pystr) : images (CallFundamentals <$> l) = [].
Proof. induction l as [|t l IH]; [reflexivity | exact IH]. Qed.

(** X14. Every panel shows exactly one of the two: one fundamentals table,
    or the notice.  The chart is asked for exactly when a table is shown, and
    the number of fundamentals calls is at most twice the number of tokens of
    the headline. *)
Theorem expander_table_or_notice (title : pystr) :
  let run := expander unicode_alnum ticker_info yf_download savefig_png title in
  length (tables run.1) + length (notices run.1) = 1 /\
  length (chart_calls run.1) = length (tables run.1) /\
  length (fundamentals_calls run.1)
    <= 2 * length (Ticker.spec_tokens unicode_alnum title).
Proof.
  intros run. subst run. unfold expander.
  set (l := Ticker.detect_ticker unicode_alnum title).
  assert (Hl : length l = 2 * length (Ticker.spec_tokens unicode_alnum title)).
  { unfold l, Ticker.detect_ticker.
    rewrite Ticker.detect_loop_pairs, Ticker.findall_spec_tokens.
    apply Ticker.pairs_length. }
  destruct (try_tickers_trace l) as (_ & Hpre & _ & Hfound & Hnone & _).
  split; [|split].
  - destruct (first_resolving l) as [Hno | (pre & t & post & Hlt & Hno & Hyes)].
    + destruct (Hnone Hno) as (_ & _ & -> & ->). reflexivity.
    + destruct (Hfound pre t post Hlt Hno Hyes) as (_ & -> & _ & ->).
      reflexivity.
  - destruct (first_resolving l) as [Hno | (pre & t & post & Hlt & Hno & Hyes)].
    + destruct (Hnone Hno) as (Htrace & _ & -> & _). rewrite Htrace.
      unfold chart_calls. rewrite omap_app.
      fold (chart_calls (CallFundamentals <$> l)).
      destruct (calls_of_calls l) as (_ & _ & -> & _). reflexivity.
    + destruct (Hfound pre t post Hlt Hno Hyes) as (_ & -> & -> & _).
      reflexivity.
  - rewrite <- Hl. apply prefix_length, Hpre.
Qed.

(** X15. A provider that hands out a dict whose [longName] is not null,
    be it an empty dict for a word that is no ticker, makes the candidate
    resolve: the loop stops there and shows its table. *)
Theorem dict_answer_resolves (t : pystr) (d : gmap string pyval) :
  ticker_info t = Ok (InfoDict d) ->
  d !! "longName"%string <> Some PyNone ->
  resolves' t = true.
Proof.
  intros Hinfo Hname. apply resolves_iff. exists (snapshot d t). split.
  - rewrite get_fundamentals_cases, Hinfo. reflexivity.
  - intros Hempty. apply Hname, (snapshot_empty_name_null d t Hempty).
Qed.

(** X16. A chart that fails or is empty only leaves out the image: for the
    first candidate that resolves the table is shown in any case, and an
    image is shown exactly when [get_stock_chart] returned a buffer, that
    buffer. *)
Theorem expander_chart_only_adds_image (title : pystr)
    (pre post : list pystr) (t : pystr) :
  Ticker.detect_ticker unicode_alnum title = pre ++ t :: post ->
  (forall t', t' ∈ pre -> resolves' t' = false) ->
  resolves' t = true ->
  let run := expander unicode_alnum ticker_info yf_download savefig_png title in
  length (tables run.1) = 1 /\
  images run.1 =
    match get_stock_chart yf_download savefig_png t with
    | Ok (Some chart) => [chart]
    | _ => []
    end.
Proof.
  intros Hl Hno Hyes run. subst run. unfold expander. rewrite Hl.
  rewrite (try_tickers_first pre post t Hno Hyes). cbn [fst].
  destruct (calls_of_calls pre) as (_ & C2 & _ & _).
  destruct (fund_block_trace t Hyes) as (_ & B2 & _ & _).
  unfold tables, images in *.
  rewrite !omap_app. cbn [omap list_omap]. fold (images (CallFundamentals <$> pre)).
  rewrite C2, images_of_calls. cbn [app]. split; [exact B2|].
  apply (fund_block_images t Hyes).
Qed.

End ExpanderFacts.

(** *** Two headlines on the example provider *)

Example expander_infy :
  (expander (fun _ => false) example_info example_download example_savefig
            (str "INFY results beat estimates; IPO next")).1 =
  [ CallFundamentals (str "INFY");
    CallFundamentals (str "INFY.NS");
    Heading (PyStr (str "Infosys Limited"));
    CardOpen;
    Table (map_to_list (snapshot infy_info (str "INFY.NS")));
    CardClose;
    CallChart (str "INFY.NS");
    Image {| buf_bytes := [137; 80; 78; 71; 13; 10; 26; 10; 0; 0]%N;
             buf_pos := 0 |} ].
Proof. vm_compute. reflexivity. Qed.

(** A headline whose second candidate resolves, and a headline without
    candidates. *)
Lemma expander_first_resolving_witness :
  fundamentals_calls
    (expander (fun _ => false) example_info example_download example_savefig
              (str "INFY results beat estimates; IPO next")).1
  = [str "INFY"; str "INFY.NS"]
  /\ (expander (fun _ => false) example_info example_download example_savefig
               (str "Markets end flat")).1
     = [Info no_ticker_notice].
Proof.
  split.
  - destruct (expander_first_resolving
                (fun _ => false) example_info example_download example_savefig
                (str "INFY results beat estimates; IPO next"))
      as (_ & _ & _ & Hfirst & _).
    destruct (Hfirst [str "INFY"] (str "INFY.NS") [str "IPO"; str "IPO.NS"])
      as (Hcalls & _).
    + vm_compute. reflexivity.
    + intros t' Ht'. apply list_elem_of_singleton in Ht'. rewrite Ht'.
      vm_compute. reflexivity.
    + vm_compute. reflexivity.
    + exact Hcalls.
  - destruct (expander_first_resolving
                (fun _ => false) example_info example_download example_savefig
                (str "Markets end flat"))
      as (_ & _ & _ & _ & _ & Hempty).
    apply Hempty. vm_compute. reflexivity.
Defined.

(** The empty dict the example provider has for [EMPTY] resolves. *)
Lemma dict_answer_resolves_witness :
  resolves example_info (str "EMPTY") = true.
Proof.
  apply (dict_answer_resolves example_info (str "EMPTY") ∅).
  - reflexivity.
  - rewrite lookup_empty. discriminate.
Defined.

(** A headline whose first candidate resolves while its price table is
    empty. *)
Lemma expander_chart_only_adds_image_witness :
  length (tables (expander (fun _ => false) example_info example_download
                           example_savefig (str "EMPTY shelves")).1) = 1
  /\ images (expander (fun _ => false) example_info example_download
                      example_savefig (str "EMPTY shelves")).1 = [].
Proof.
  apply (expander_chart_only_adds_image (fun _ => false) example_info
           example_download example_savefig (str "EMPTY shelves")
           [] [str "EMPTY.NS"] (str "EMPTY")).
  - vm_compute. reflexivity.
  - intros t' Ht'. apply elem_of_nil in Ht'. contradiction.
  - vm_compute. reflexivity.
Defined.

End Panel.

(** ** The page: fetch, then one block per article (lines 134-165) *)

Module Page.

Import Py News Fundamentals Chart Panel.

(** The calls of the page renderer made by the main part of the script. *)
Inductive st_call : Type :=
| StSpinner (text : pystr)
| StWarning (text : pystr)
| StMarkdown (body : pystr)
| StExpander (label : pystr) (body : list ui_call).

(** A value inside an f-string: [None] is printed as the word None. *)
Definition fmt (o : option pystr) : pystr := default (str "None") o.

(** Line 142. *)
Definition headline_html (t : pystr) (l : option pystr) : pystr :=
  str "<div class='headline'>[" ++ t ++ str "](" ++ fmt l ++ str ")</div>".

(** Line 143; the calendar sign is the code point U+1F4C5. *)
Definition meta_html (published : pystr) (cls label : string) : pystr :=
  str "<div class='meta'>" ++ [128197%N] ++ str " " ++ published
  ++ str " | Sentiment: <span class='sentiment " ++ str cls ++ str "'>"
  ++ str label ++ str "</span></div>".

(** Line 145. *)
Definition desc_html (summary : pystr) : pystr :=
  str "<div class='desc'>" ++ summary ++ str "</div>".

(** Line 147; the chart sign is the code point U+1F4CA. *)
Definition expander_label : pystr :=
  [128202%N] ++ str " Show Company Fundamentals & Chart".

Definition rule_html : pystr := str "<hr style='opacity:0.2'>".

(** Line 165; the two signs are the code points U+26A1 and U+2022. *)
Definition footer_html : pystr :=
  str "<br><center>" ++ [9889%N] ++ str " Built with Streamlit " ++ [8226%N]
  ++ str " yfinance " ++ [8226%N] ++ str " TextBlob " ++ [8226%N]
  ++ str " Google News RSS</center>".

Definition no_news_warning : pystr :=
  str "No recent news found. Try a different query.".

Section Script.

Variable polarity_of : pystr -> float.
Variable unicode_alnum : N -> bool.
Variable ticker_info : pystr -> res info_obj.
Variable yf_download : pystr -> string -> res dataframe.
Variable savefig_png : list Z -> list float -> pystr -> res (list N).

(** Lines 141-163 for one article: the calls made and the exception that
    ended them, if any.  The title goes to [TextBlob] first, which refuses
    anything that is not a string with a [TypeError]; the body of the
    [with st.expander] block runs on every rendering. *)
Definition render_article (a : article) : list st_call * option exn :=
  match title a with
  | None => ([], Some (LibraryError "TypeError"))
  | Some t =>
      let '(label, cls, pol) := Sentiment.analyze_sentiment polarity_of t in
      let run :=
        expander unicode_alnum ticker_info yf_download savefig_png t in
      ([ StMarkdown (headline_html t (link a));
         StMarkdown (meta_html (published a) cls label) ]
       ++ (if summary a is [] then [] else [StMarkdown (desc_html (summary a))])
       ++ [StExpander expander_label run.1]
       ++ (if run.2 is None then [StMarkdown rule_html] else []),
       run.2)
  end.

(** The [for a in news_list] loop of line 140. *)
Fixpoint render_all (news : list article) : list st_call * option exn :=
  match news with
  | [] => ([], None)
  | a :: rest =>
      let one := render_article a in
      match one.2 with
      | Some e => (one.1, Some e)
      | None => let others := render_all rest in (one.1 ++ others.1, others.2)
      end
  end.

(** Lines 134-165, for the query and the item count set in the sidebar. *)
Definition main (w : world) (query : pystr) (max_news : Z)
    : list st_call * option exn :=
  let news_list := fetch_google_news w query 7 max_news in
  let body :=
    if news_list is [] then ([StWarning no_news_warning], None)
    else render_all news_list in
  (StSpinner (str "Fetching news...") :: body.1
   ++ (if body.2 is None then [StMarkdown footer_html] else []),
   body.2).

(** The panels of a page, in the order they are laid out. *)
Definition panels (trace : list st_call) : list (list ui_call) :=
  omap (fun c => match c with StExpander _ body => Some body | _ => None end)
       trace.

Definition warnings (trace : list st_call) : list pystr :=
  omap (fun c => match c with StWarning text => Some text | _ => None end)
       trace.

(** The panel of a title. *)
Definition panel_of (t : pystr) : list ui_call :=
  (expander unicode_alnum ticker_info yf_download savefig_png t).1.

End Script.

(** *** What a page shows *)

Section ScriptFacts.

Variable polarity_of : pystr -> float.
Variable unicode_alnum : N -> bool.
Variable ticker_info : pystr -> res info_obj.
Variable yf_download : pystr -> string -> res dataframe.
Variable savefig_png : list Z -> list float -> pystr -> res (list N).

Local Abbreviation render_article' :=
  (render_article polarity_of unicode_alnum ticker_info yf_download savefig_png).
Local Abbreviation render_all' :=
  (render_all polarity_of unicode_alnum ticker_info yf_download savefig_png).
Local Abbreviation main' :=
  (main polarity_of unicode_alnum ticker_info yf_download savefig_png).
Local Abbreviation panel_of' :=
  (panel_of unicode_alnum ticker_info yf_download savefig_png).

(** The title an article is rendered with. *)
Definition shown_title (a : article) : pystr := default [] (title a).

(** An article with a title is rendered in full: no exception, one panel,
    no warning. *)
Lemma render_article_titled (a : article) :
  is_Some (title a) ->
  (render_article' a).2 = None /\
  panels (render_article' a).1 = [panel_of' (shown_title a)] /\
  warnings (render_article' a).1 = [].
Proof.
  intros [t Ht]. unfold render_article, panel_of, shown_title. rewrite Ht.
  destruct (Sentiment.analyze_sentiment polarity_of t) as [[label cls] pol].
  unfold expander.
  destruct (try_tickers_trace ticker_info yf_download savefig_png
              (Ticker.detect_ticker unicode_alnum t)) as (Hexn & _).
  rewrite Hexn. cbn [fst snd default].
  unfold panels, warnings. destruct (summary a); repeat split.
Qed.

Lemma render_article_untitled (a : article) :
  title a = None ->
  render_article' a = ([], Some (LibraryError "TypeError")).
Proof. intros Ht. unfold render_article. rewrite Ht. reflexivity. Qed.

Lemma render_all_titled (news : list article) :
  (forall a, a ∈ news -> is_Some (title a)) ->
  (render_all' news).2 = None /\
  panels (render_all' news).1 = (fun a => panel_of' (shown_title a)) <$> news /\
  warnings (render_all' news).1 = [].
Proof.
  induction news as [|a rest IH]; intros Hall; [repeat split|].
  destruct (render_article_titled a) as (Hexn & Hpan & Hwarn).
  { apply Hall, elem_of_cons. auto. }
  destruct IH as (IHexn & IHpan & IHwarn).
  { intros a' Ha'. apply Hall, elem_of_cons. auto. }
  cbn [render_all]. rewrite Hexn. cbn [fst snd].
  unfold panels, warnings in *. rewrite !omap_app, Hpan, Hwarn, IHpan, IHwarn.
  repeat split. exact IHexn.
Qed.

Lemma render_all_untitled (pre post : list article) (a : article) :
  (forall a', a' ∈ pre -> is_Some (title a')) ->
  title a = None ->
  (render_all' (pre ++ a :: post)).2 = Some (LibraryError "TypeError") /\
  panels (render_all' (pre ++ a :: post)).1 =
    (fun a' => panel_of' (shown_title a')) <$> pre.
Proof.
  intros Hpre Hnone. induction pre as [|p pre IH]; simpl app.
  - cbn [render_all]. rewrite (render_article_untitled a Hnone).
    split; reflexivity.
  - destruct (render_article_titled p) as (Hexn & Hpan & _).
    { apply Hpre, elem_of_cons. auto. }
    destruct IH as (IHexn & IHpan).
    { intros a' Ha'. apply Hpre, elem_of_cons. auto. }
    cbn [render_all]. rewrite Hexn. cbn [fst snd].
    unfold panels in *. rewrite omap_app, Hpan, IHpan.
    split; [exact IHexn | reflexivity].
Qed.

(** Articles inherit their titles from the feed. *)
Lemma fetch_titles (w : world) (query : pystr) (days max_items : Z) :
  (forall e, e ∈ feed_entries w (feed_url w query) -> is_Some (e_title e)) ->
  forall a, a ∈ fetch_google_news w query days max_items -> is_Some (title a).
Proof.
  intros Hfeed a Ha. rewrite fetch_google_news_take in Ha.
  apply elem_of_take in Ha as (i & Ha & _).
  apply list_lookup_fmap_Some in Ha as (e & -> & He).
  apply list_elem_of_lookup_2 in He. unfold kept in He.
  apply list_elem_of_filter in He as [_ He]. exact (Hfeed e He).
Qed.

Lemma kept_all_old (cutoff : datetime) (entries : list entry) :
  (forall e, e ∈ entries -> too_old cutoff e = true) ->
  kept cutoff entries = [].
Proof.
  unfold kept. induction entries as [|e rest IH]; intros Hold; [reflexivity|].
  rewrite filter_cons_False.
  - apply IH. intros e' He'. apply Hold, elem_of_cons. auto.
  - rewrite (Hold e) by (apply elem_of_cons; auto). discriminate.
Qed.

(** X17. When the feed is empty, or every entry in it is older than seven
    days, the page shows the spinner, the "no recent news" warning and the
    footer, and nothing else: no headline, no panel, no call of the sentiment
    scorer or of the market-data provider. *)
Theorem main_no_news (w : world) (query : pystr) (max_news : Z) :
  (forall e, e ∈ feed_entries w (feed_url w query) ->
             too_old (minus_days (utcnow w) 7) e = true) ->
  main' w query max_news =
  ([ StSpinner (str "Fetching news...");
     StWarning no_news_warning;
     StMarkdown footer_html ], None).
Proof.
  intros Hold. unfold main.
  assert (Hnone : fetch_google_news w query 7 max_news = []).
  { rewrite fetch_google_news_take, (kept_all_old _ _ Hold).
    rewrite fmap_nil, take_nil. reflexivity. }
  rewrite Hnone. reflexivity.
Qed.

(** X18. When every entry of the feed has a title, the page is rendered to
    the end without an exception; it lays out one panel per fetched article,
    in the order of the fetch, each being the panel of that article's own
    title; and the warning is shown exactly when nothing was fetched. *)
Theorem main_titled_feed (w : world) (query : pystr) (max_news : Z) :
  (forall e, e ∈ feed_entries w (feed_url w query) -> is_Some (e_title e)) ->
  let news := fetch_google_news w query 7 max_news in
  let run := main' w query max_news in
  run.2 = None /\
  panels run.1 = (fun a => panel_of' (shown_title a)) <$> news /\
  warnings run.1 = (if news is [] then [no_news_warning] else []).
Proof.
  intros Hfeed news run. subst run. unfold main. fold news.
  pose proof (fetch_titles w query 7 max_news Hfeed) as Htitles. fold news in Htitles.
  destruct news as [|a rest] eqn:Hnews; [repeat split|].
  destruct (render_all_titled (a :: rest) Htitles) as (Hexn & Hpan & Hwarn).
  rewrite Hexn. cbn [fst snd]. unfold panels, warnings in *.
  cbn [omap list_omap]. rewrite !omap_app, Hpan, Hwarn.
  cbn [omap list_omap]. rewrite app_nil_r. repeat split.
Qed.

(** X19. An article without a title stops the page: the articles fetched
    before it are laid out with their panels, then the sentiment scorer
    raises [TypeError] on the missing title and the script ends there, with
    no panel for that article or any later one. *)
Theorem main_untitled_article_raises (w : world) (query : pystr)
    (max_news : Z) (pre post : list article) (a : article) :
  fetch_google_news w query 7 max_news = pre ++ a :: post ->
  (forall a', a' ∈ pre -> is_Some (title a')) ->
  title a = None ->
  let run := main' w query max_news in
  run.2 = Some (LibraryError "TypeError") /\
  panels run.1 = (fun a' => panel_of' (shown_title a')) <$> pre.
Proof.
  intros Hfetch Hpre Hnone run. subst run. unfold main. rewrite Hfetch.
  destruct (render_all_untitled pre post a Hpre Hnone) as (Hexn & Hpan).
  assert (Hbody : (if pre ++ a :: post is []
                   then ([StWarning no_news_warning], None)
                   else render_all' (pre ++ a :: post))
                  = render_all' (pre ++ a :: post))
    by (destruct pre; reflexivity).
  rewrite Hbody, Hexn. cbn [fst snd]. unfold panels in *.
  cbn [omap list_omap]. rewrite omap_app, Hpan.
  cbn [omap list_omap]. rewrite app_nil_r. split; reflexivity.
Qed.

End ScriptFacts.

(** *** Three pages on the example feed *)

(** A feed with nothing but a stale entry. *)
Lemma main_no_news_witness :
  main (fun _ => 0.5%float) (fun _ => false) example_info example_download
       example_savefig (example_world [stale_entry]) (str "IPO") 25 =
  ([ StSpinner (str "Fetching news...");
     StWarning no_news_warning;
     StMarkdown footer_html ], None).
Proof.
  apply (main_no_news (fun _ => 0.5%float) (fun _ => false) example_info
           example_download example_savefig (example_world [stale_entry])
           (str "IPO") 25).
  intros e He. apply list_elem_of_singleton in He. rewrite He. reflexivity.
Defined.

(** A feed whose two entries have titles. *)
Lemma main_titled_feed_witness :
  (main (fun _ => 0.5%float) (fun _ => false) example_info example_download
        example_savefig (example_world [recent_entry; undated_entry])
        (str "IPO") 25).2 = None.
Proof.
  destruct (main_titled_feed (fun _ => 0.5%float) (fun _ => false)
              example_info example_download example_savefig
              (example_world [recent_entry; undated_entry]) (str "IPO") 25)
    as (Hexn & _).
  - intros e He. apply elem_of_cons in He as [-> | He]; [eexists; reflexivity|].
    apply list_elem_of_singleton in He. rewrite He. eexists. reflexivity.
  - exact Hexn.
Defined.

(** A feed whose second entry has no title. *)
Lemma main_untitled_article_raises_witness :
  (main (fun _ => 0.5%float) (fun _ => false) example_info example_download
        example_savefig (example_world [recent_entry; untitled_entry])
        (str "IPO") 25).2 = Some (LibraryError "TypeError").
Proof.
  destruct (main_untitled_article_raises (fun _ => 0.5%float) (fun _ => false)
              example_info example_download example_savefig
              (example_world [recent_entry; untitled_entry]) (str "IPO") 25
              [article_of recent_entry] [] (article_of untitled_entry))
    as (Hexn & _).
  - reflexivity.
  - intros a' Ha'. apply list_elem_of_singleton in Ha'. rewrite Ha'.
    eexists. reflexivity.
  - reflexivity.
  - exact Hexn.
Defined.

End Page.
